(** * Expense tracker: the persistence store [ExpenseTrackerDB] and its callers

    A shallow embedding of [src/expense_tracker.py].

    The store is a Python object holding one SQLite connection.  Every method
    is a short sequence of SQL statements wrapped in [try ... except
    sqlite3.Error].  The embedding follows that shape:

    - the database file is a value of type [file]; a table is a finite map
      from rowid to row together with its AUTOINCREMENT counter;
    - each SQL statement of the source is a function on [tables] that either
      fails with the engine's message or returns its result and the new
      tables;
    - the methods are written in a state-and-exception monad [M] over the
      Python object, with [try_except] for the handlers and a log of the
      dialogs ([messagebox.showerror]) and of [print].

    Amounts are stored in a REAL column.  The number type is a parameter
    [real] with its addition and zero, so that nothing below depends on a
    particular arithmetic; of its values only the one that is not a number
    is told apart ([is_nan]), because the engine stores it as NULL.

    Integers that are bound to a statement (the ids passed to the methods)
    are signed 64-bit integers ([int64]).  [sqlite3] raises [OverflowError]
    for a Python integer outside that range before the statement runs; the
    methods are modelled for the ids that can be bound, and the statements
    about a given id assume it is one. *)

From Stdlib Require Import ZArith Lia.
From stdpp Require Import base option list sorting strings gmap.

Local Open Scope Z_scope.

(** ** Python values and control *)

(** The exceptions that occur: every error of the storage layer is an
    instance of [sqlite3.Error]; calling a method of [None] raises
    [AttributeError], which no handler of the source catches. *)
Inductive exn :=
  | sqlite3_Error (msg : string)
  | AttributeError (msg : string)
  | ValueError (msg : string).

Inductive result (A : Type) :=
  | Return (a : A)
  | Raise (e : exn).
Arguments Return {A} a.
Arguments Raise {A} e.

(** The integers that [sqlite3] binds to a parameter of a statement. *)
Definition int64 (i : Z) : Prop := - 2 ^ 63 ≤ i < 2 ^ 63.

(** The amounts are Python floats.  [is_nan] tells the value [nan] from the
    others; [sqlite3] binds it as NULL. *)
Class NaN (real : Type) := is_nan : real → bool.

(** What the user gets to see. *)
Inductive event :=
  | showerror (title message : string)
  | showwarning (title message : string)
  | print (message : string).

(** [delete_expense] returns [True], [False] or an empty list. *)
Inductive flag :=
  | Bool (b : bool)
  | EmptyList.

(** [if flag:] *)
Definition flag_truthy (v : flag) : bool :=
  match v with
  | Bool b => b
  | EmptyList => false
  end.

(** An optional string argument ([None] by default) is tested by the source
    with [if arg:], which is false for [None] and for the empty string. *)
Definition truthy (arg : option string) : bool :=
  match arg with
  | None => false
  | Some s => negb (String.eqb s "")
  end.

Definition param (arg : option string) : string := default "" arg.

(** A Python [dict] keeps its keys in insertion order; assigning to a key
    that is present replaces the value in place. *)
Fixpoint dict_set {V : Type} (k : string) (v : V) (d : list (string * V))
    : list (string * V) :=
  match d with
  | [] => [(k, v)]
  | (k', v') :: d' =>
      if String.eqb k k' then (k', v) :: d' else (k', v') :: dict_set k v d'
  end.

Fixpoint dict_get {V : Type} (d : list (string * V)) (k : string) : option V :=
  match d with
  | [] => None
  | (k', v) :: d' => if String.eqb k k' then Some v else dict_get d' k
  end.

Definition dict_keys {V : Type} (d : list (string * V)) : list string := d.*1.

(** [{row[0]: row[1] for row in rows}] *)
Definition dict_of_rows {V : Type} (rows : list (string * V))
    : list (string * V) :=
  foldl (λ d row, dict_set row.1 row.2 d) [] rows.

(** ** Sorting *)

(** [ORDER BY]: the rows come out in the order of the key, rows with equal
    keys in the order in which they went in. *)
Fixpoint insert_by {A : Type} (R : relation A) `{!∀ x y, Decision (R x y)}
    (x : A) (l : list A) : list A :=
  match l with
  | [] => [x]
  | y :: l' => if decide (R x y) then x :: y :: l' else y :: insert_by R x l'
  end.

Definition order_by {A : Type} (R : relation A) `{!∀ x y, Decision (R x y)}
    (l : list A) : list A :=
  foldr (insert_by R) [] l.

(** ** The storage engine *)

(** A table with [INTEGER PRIMARY KEY AUTOINCREMENT]: the rows by rowid, and
    the largest rowid handed out so far (the table's entry in
    [sqlite_sequence]). *)
Record table (R : Type) := Table {
  rows : gmap Z R;
  seq : Z
}.
Arguments Table {R} rows seq.
Arguments rows {R} t.
Arguments seq {R} t.

Definition empty_table {R : Type} : table R := Table ∅ 0.

(** The rows of a table in the order of a full scan: by ascending rowid. *)
Definition rowid_le {R : Type} (row1 row2 : Z * R) : Prop := row1.1 ≤ row2.1.

#[global] Instance rowid_le_dec {R : Type} (row1 row2 : Z * R) :
  Decision (rowid_le row1 row2).
Proof. unfold rowid_le. apply _. Defined.

Definition scan {R : Type} (t : table R) : list (Z * R) :=
  order_by rowid_le (map_to_list (rows t)).

Definition max_rowid {R : Type} (t : table R) : Z :=
  foldr Z.max 0 (scan t).*1.

(** The rowid of the next inserted row: one more than the largest rowid the
    table has or has ever had.  Rowids are signed 64-bit integers, and a
    table that has held the largest of them takes no further row; the
    tables are taken not to have come that far, and what is stated of a
    row that was inserted assumes [int64] of its rowid. *)
Definition next_rowid {R : Type} (t : table R) : Z :=
  Z.max (seq t) (max_rowid t) + 1.

Definition insert_row {R : Type} (r : R) (t : table R) : table R :=
  let i := next_rowid t in Table (<[i := r]> (rows t)) i.

Section Store.
Context {real : Type} `{!NaN real} (add : real → real → real) (zero : real).

(** A row of [expenses], without its rowid. *)
Record expense := Expense {
  e_amount : real;
  e_category_id : Z;
  e_date : string;
  e_description : string
}.

(** A row of the joined queries:
    [SELECT e.id, e.amount, c.name, e.date, e.description]. *)
Record record := Record_ {
  r_id : Z;
  r_amount : real;
  r_name : string;
  r_date : string;
  r_description : string
}.

(** The schema of the file: each table is there or not. *)
Record tables := Tables {
  categories : option (table string);
  expenses : option (table expense)
}.

(** A file that [sqlite3.connect] can open.  The connection is opened
    lazily: a file that is not a database is only noticed by the first
    statement, which raises [sqlite3.DatabaseError]. *)
Inductive file :=
  | NotADatabase
  | Database (tb : tables).

(** A statement: the engine's error message, or a result and the new
    tables. *)
Definition stmt (A : Type) : Type := tables → string + (A * tables).

Definition no_such_table {A : Type} (name : string) : string + A :=
  inl ("no such table: " +:+ name).

(** [CREATE TABLE IF NOT EXISTS categories (...)] *)
Definition create_categories : stmt unit := λ tb,
  match categories tb with
  | Some _ => inr ((), tb)
  | None => inr ((), Tables (Some empty_table) (expenses tb))
  end.

(** [CREATE TABLE IF NOT EXISTS expenses (...)] *)
Definition create_expenses : stmt unit := λ tb,
  match expenses tb with
  | Some _ => inr ((), tb)
  | None => inr ((), Tables (categories tb) (Some empty_table))
  end.

Definition has_nameb (name : string) (t : table string) : bool :=
  bool_decide (name ∈ (scan t).*2).

(** [INSERT OR IGNORE INTO categories (name) VALUES (?)]: the UNIQUE
    constraint on [name] makes the engine drop the row of a name that is
    present.  The rowid it had drawn for that row stays drawn: the counter
    of the table advances all the same. *)
Definition ignore_row {R : Type} (t : table R) : table R :=
  Table (rows t) (next_rowid t).

Definition insert_or_ignore_category (name : string) : stmt unit := λ tb,
  match categories tb with
  | None => no_such_table "categories"
  | Some c =>
      if has_nameb name c then inr ((), Tables (Some (ignore_row c)) (expenses tb))
      else inr ((), Tables (Some (insert_row name c)) (expenses tb))
  end.

(** [SELECT id FROM categories WHERE name = ?], then [fetchone()]. *)
Definition select_category_id (name : string) : stmt (option Z) := λ tb,
  match categories tb with
  | None => no_such_table "categories"
  | Some c => inr (fst <$> head (filter (λ row, row.2 = name) (scan c)), tb)
  end.

(** [amount REAL NOT NULL]: the amount [nan] arrives as NULL and the row
    is refused. *)
Definition not_null_amount : string := "NOT NULL constraint failed: expenses.amount".

(** [INSERT INTO expenses (amount, category_id, date, description)
    VALUES (?, ?, ?, ?)] *)
Definition insert_expense (amount : real) (category_id : Z)
    (date description : string) : stmt unit := λ tb,
  match expenses tb with
  | None => no_such_table "expenses"
  | Some e =>
      if is_nan amount then inl not_null_amount
      else
        inr ((), Tables (categories tb)
                   (Some (insert_row (Expense amount category_id date description) e)))
  end.

(** [UPDATE expenses SET amount = ?, category_id = ?, date = ?,
    description = ? WHERE id = ?]: the constraint on the amount is checked
    on the row that is rewritten, if there is one.  The id is one that can
    be bound ([int64]). *)
Definition update_expense_row (amount : real) (category_id : Z)
    (date description : string) (expense_id : Z) : stmt unit := λ tb,
  match expenses tb with
  | None => no_such_table "expenses"
  | Some e =>
      if is_nan amount && bool_decide (is_Some (rows e !! expense_id))
      then inl not_null_amount
      else
        let row := Expense amount category_id date description in
        inr ((), Tables (categories tb)
                   (Some (Table (alter (λ _, row) expense_id (rows e)) (seq e))))
  end.

(** [DELETE FROM expenses WHERE id = ?], for an id that can be bound
    ([int64]). *)
Definition delete_expense_row (expense_id : Z) : stmt unit := λ tb,
  match expenses tb with
  | None => no_such_table "expenses"
  | Some e =>
      inr ((), Tables (categories tb)
                 (Some (Table (delete expense_id (rows e)) (seq e))))
  end.

(** [FROM expenses e JOIN categories c ON e.category_id = c.id]: an
    expense whose category is not there has no row in the join. *)
Definition join_row (c : table string) (row : Z * expense) : option record :=
  name ← rows c !! e_category_id row.2;
  Some (Record_ row.1 (e_amount row.2) name (e_date row.2) (e_description row.2)).

Definition join (e : table expense) (c : table string) : list record :=
  omap (join_row c) (scan e).

(** The conditions the source appends to its [conditions] list, each with
    the parameter it appends to [params]. *)
Inductive condition :=
  | date_ge (start_date : string)   (* "e.date >= ?" *)
  | date_le (end_date : string)     (* "e.date <= ?" *)
  | name_eq (category_name : string). (* "c.name = ?" *)

(** Text is compared bytewise (the BINARY collation). *)
Definition holds (r : record) (cond : condition) : Prop :=
  match cond with
  | date_ge start_date => String.le start_date (r_date r)
  | date_le end_date => String.le (r_date r) end_date
  | name_eq category_name => r_name r = category_name
  end.

#[global] Instance holds_dec r cond : Decision (holds r cond).
Proof. destruct cond; simpl; apply _. Defined.

(** [" WHERE " + " AND ".join(conditions)], nothing when there is none. *)
Definition where_ (conditions : list condition) (l : list record) : list record :=
  filter (λ r, Forall (holds r) conditions) l.

(** [ORDER BY e.date DESC] *)
Definition date_desc (r1 r2 : record) : Prop := String.le (r_date r2) (r_date r1).

Definition order_by_date_desc (l : list record) : list record :=
  order_by date_desc l.

Definition joined (conditions : list condition) : stmt (list record) := λ tb,
  match expenses tb, categories tb with
  | None, _ => no_such_table "expenses"
  | _, None => no_such_table "categories"
  | Some e, Some c => inr (where_ conditions (join e c), tb)
  end.

(** [SELECT e.id, e.amount, c.name, e.date, e.description FROM expenses e
    JOIN categories c ON e.category_id = c.id [WHERE ...]
    ORDER BY e.date DESC], then [fetchall()]. *)
Definition select_expenses (conditions : list condition) : stmt (list record) :=
  λ tb,
  match joined conditions tb with
  | inl msg => inl msg
  | inr (l, tb') => inr (order_by_date_desc l, tb')
  end.

(** [SELECT ... WHERE e.id = ?], then [fetchone()]. *)
Definition select_expense_by_id (expense_id : Z) : stmt (option record) := λ tb,
  match joined [] tb with
  | inl msg => inl msg
  | inr (l, tb') => inr (head (filter (λ r, r_id r = expense_id) l), tb')
  end.

(** [SELECT name FROM categories ORDER BY name ASC], then [fetchall()]. *)
Definition select_category_names : stmt (list string) := λ tb,
  match categories tb with
  | None => no_such_table "categories"
  | Some c => inr (order_by String.le (scan c).*2, tb)
  end.

(** [GROUP BY c.name ORDER BY c.name ASC] with [SUM(e.amount)]: the rows
    are sorted by name, and one pass sums each run of equal names,
    starting every sum at zero. *)
Definition name_asc (r1 r2 : record) : Prop := String.le (r_name r1) (r_name r2).

Fixpoint sum_groups (name : string) (total : real) (l : list record)
    : list (string * real) :=
  match l with
  | [] => [(name, total)]
  | r :: l' =>
      if decide (r_name r = name) then sum_groups name (add total (r_amount r)) l'
      else (name, total) :: sum_groups (r_name r) (add zero (r_amount r)) l'
  end.

Definition group_by_name (l : list record) : list (string * real) :=
  match order_by name_asc l with
  | [] => []
  | r :: l' => sum_groups (r_name r) (add zero (r_amount r)) l'
  end.

(** [SELECT c.name, SUM(e.amount) FROM expenses e JOIN categories c
    ON e.category_id = c.id [WHERE ...] GROUP BY c.name
    ORDER BY c.name ASC], then [fetchall()]. *)
Definition select_spending (conditions : list condition)
    : stmt (list (string * real)) := λ tb,
  match joined conditions tb with
  | inl msg => inl msg
  | inr (l, tb') => inr (group_by_name l, tb')
  end.

(** ** The object and its monad *)

(** [self.conn] is [None] or the open connection, here the file it is
    open on; [self.cursor] is set exactly when [self.conn] is.  [events]
    is what has been shown to the user so far, oldest first. *)
Record ExpenseTrackerDB := Self {
  conn : option file;
  events : list event
}.

Definition M (A : Type) : Type := ExpenseTrackerDB → result A * ExpenseTrackerDB.

Definition ret {A : Type} (a : A) : M A := λ self, (Return a, self).

Definition bind {A B : Type} (m : M A) (k : A → M B) : M B := λ self,
  match m self with
  | (Return a, self') => k a self'
  | (Raise e, self') => (Raise e, self')
  end.

(** [try: body except sqlite3.Error as e: handler] *)
Definition try_except {A : Type} (body : M A) (handler : string → M A) : M A :=
  λ self,
  match body self with
  | (Raise (sqlite3_Error e), self') => handler e self'
  | other => other
  end.

Definition emit (ev : event) : M unit := λ self,
  (Return (), Self (conn self) (events self ++ [ev])).

(** [self.cursor.execute(...)] *)
Definition execute {A : Type} (s : stmt A) : M A := λ self,
  match conn self with
  | None => (Raise (AttributeError "'NoneType' object has no attribute 'execute'"), self)
  | Some NotADatabase => (Raise (sqlite3_Error "file is not a database"), self)
  | Some (Database tb) =>
      match s tb with
      | inl msg => (Raise (sqlite3_Error msg), self)
      | inr (a, tb') => (Return a, Self (Some (Database tb')) (events self))
      end
  end.

(** [self.conn.commit()]: every write of the source is followed by its
    commit, so the tables above are the committed ones; with no
    transaction open it does nothing. *)
Definition commit : M unit := λ self,
  match conn self with
  | None => (Raise (AttributeError "'NoneType' object has no attribute 'commit'"), self)
  | Some _ => (Return (), self)
  end.

(** [if not self.conn: return v] *)
Definition guard_conn {A : Type} (v : A) (body : M A) : M A := λ self,
  match conn self with
  | None => (Return v, self)
  | Some _ => body self
  end.

Fixpoint for_each {A : Type} (l : list A) (body : A → M unit) : M unit :=
  match l with
  | [] => ret ()
  | x :: l' => bind (body x) (λ _, for_each l' body)
  end.
End Store.

Arguments expense : clear implicits.
Arguments record : clear implicits.
Arguments tables : clear implicits.
Arguments file : clear implicits.
Arguments ExpenseTrackerDB : clear implicits.
Arguments M : clear implicits.

Notation "x <- m ;; k" := (bind m (λ x, k))
  (at level 100, m at next level, k at level 200, right associativity).
Notation "m ;; k" := (bind m (λ _, k))
  (at level 100, k at level 200, right associativity).

(** ** The methods of [ExpenseTrackerDB] *)

Definition default_categories : list string :=
  ["Food"; "Transport"; "Utilities"; "Rent"; "Shopping"; "Entertainment";
   "Salary"; "Other"].

Section Methods.
Context {real : Type} `{!NaN real} (add : real → real → real) (zero : real).

Local Abbreviation M := (M real).

(** [sqlite3.connect(self.db_name)]: [path] is what is found under the
    name, [None] when it cannot be opened. *)
Definition connect (path : option (file real)) : M unit := λ self,
  match path with
  | None => (Raise (sqlite3_Error "unable to open database file"), self)
  | Some f => (Return (), Self (Some f) (events self))
  end.

Definition set_conn (c : option (file real)) : M unit := λ self,
  (Return (), Self c (events self)).

Definition _connect (path : option (file real)) : M unit :=
  try_except (connect path)
    (λ e, emit (showerror "Database Error"
                  ("Failed to connect to database: " +:+ e));;
          set_conn None).

Definition _insert_default_categories : M unit :=
  for_each default_categories (λ category,
    try_except (execute (insert_or_ignore_category category))
      (λ e, emit (print ("Error inserting default category '" +:+ category
                         +:+ "': " +:+ e))));;
  commit.

Definition _create_tables : M unit :=
  try_except
    (execute create_categories;;
     execute create_expenses;;
     commit;;
     _insert_default_categories)
    (λ e, emit (showerror "Database Error" ("Failed to create tables: " +:+ e))).

(** [ExpenseTrackerDB(db_name)] *)
Definition __init__ (path : option (file real)) : M unit :=
  set_conn None;;
  _connect path;;
  guard_conn () _create_tables.

Definition _get_category_id (category_name : string) : M (option Z) :=
  execute (select_category_id category_name).

Definition category_not_found (category_name : string) : event :=
  showerror "Error" ("Category '" +:+ category_name
                     +:+ "' not found. Please select a valid category.").

Definition add_expense (amount : real) (category_name date description : string)
    : M bool :=
  guard_conn false
    (try_except
       (category_id <- _get_category_id category_name;;
        match category_id with
        | None => emit (category_not_found category_name);; ret false
        | Some category_id =>
            execute (insert_expense amount category_id date description);;
            commit;;
            ret true
        end)
       (λ e, emit (showerror "Database Error" ("Failed to add expense: " +:+ e));;
             ret false)).

(** The [conditions] and [params] lists of [get_expenses]. *)
Definition expenses_conditions (start_date end_date category_name : option string)
    : list (condition) :=
  let conditions := [] in
  let conditions :=
    if truthy start_date then conditions ++ [date_ge (param start_date)]
    else conditions in
  let conditions :=
    if truthy end_date then conditions ++ [date_le (param end_date)]
    else conditions in
  let conditions :=
    if truthy category_name then conditions ++ [name_eq (param category_name)]
    else conditions in
  conditions.

Definition get_expenses (start_date end_date category_name : option string)
    : M (list (record real)) :=
  guard_conn []
    (try_except
       (execute (select_expenses
                   (expenses_conditions start_date end_date category_name)))
       (λ e, emit (showerror "Database Error"
                     ("Failed to retrieve expenses: " +:+ e));;
             ret [])).

Definition get_expense_by_id (expense_id : Z) : M (option (record real)) :=
  guard_conn None
    (try_except
       (execute (select_expense_by_id expense_id))
       (λ e, emit (showerror "Database Error"
                     ("Failed to retrieve expense by ID: " +:+ e));;
             ret None)).

Definition update_expense (expense_id : Z) (amount : real)
    (category_name date description : string) : M bool :=
  guard_conn false
    (try_except
       (category_id <- _get_category_id category_name;;
        match category_id with
        | None => emit (category_not_found category_name);; ret false
        | Some category_id =>
            execute (update_expense_row amount category_id date description
                       expense_id);;
            commit;;
            ret true
        end)
       (λ e, emit (showerror "Database Error" ("Failed to update expense: " +:+ e));;
             ret false)).

Definition delete_expense (expense_id : Z) : M flag :=
  guard_conn (Bool false)
    (try_except
       (execute (delete_expense_row expense_id);;
        commit;;
        ret (Bool true))
       (λ e, emit (showerror "Database Error" ("Failed to delete expense: " +:+ e));;
             ret EmptyList)).

Definition get_categories : M (list string) :=
  guard_conn []
    (try_except
       (execute select_category_names)
       (λ e, emit (showerror "Database Error"
                     ("Failed to retrieve categories: " +:+ e));;
             ret [])).

(** The [conditions] and [params] lists of [get_spending_by_category]. *)
Definition spending_conditions (start_date end_date : option string)
    : list condition :=
  let conditions := [] in
  let conditions :=
    if truthy start_date then conditions ++ [date_ge (param start_date)]
    else conditions in
  let conditions :=
    if truthy end_date then conditions ++ [date_le (param end_date)]
    else conditions in
  conditions.

Definition get_spending_by_category (start_date end_date : option string)
    : M (list (string * real)) :=
  guard_conn []
    (try_except
       (rows <- execute (select_spending add zero
                           (spending_conditions start_date end_date));;
        ret (dict_of_rows rows))
       (λ e, emit (showerror "Database Error"
                     ("Failed to get spending by category: " +:+ e));;
             ret [])).
End Methods.

(** ** The callers in [ExpenseTrackerApp] *)

(** Of the application only what decides whether and how the store is
    called is modelled: the validation of the form and the three button
    handlers.  The widgets (tree view, entry fields, status label) are left
    out; the contents of the form are arguments of the handlers.  What
    Python's library does is taken as a parameter: [str.strip], [float]
    ([None] for [ValueError]), the test [amount <= 0] on floats, and whether
    [datetime.datetime.strptime(_, '%Y-%m-%d')] accepts. *)
Section Presentation.
Context {real : Type} `{!NaN real}.
Context (strip : string → string) (float : string → option real)
        (le_zero : real → bool) (strptime : string → bool).

Local Abbreviation M := (M real).

Definition _validate_input (amount_str category_name date_str : string)
    : bool * string :=
  if String.eqb (strip amount_str) "" then
    (false, "Amount cannot be empty.")
  else
    match float amount_str with
    | None => (false, "Amount must be a valid number (e.g., 100 or 50.75).")
    | Some amount =>
        if le_zero amount then
          (false, "Amount must be a positive number.")
        else if String.eqb (strip category_name) "" then
          (false, "Category cannot be empty. Please select one.")
        else if String.eqb (strip date_str) "" then
          (false, "Date cannot be empty.")
        else if strptime date_str then
          (true, "")
        else
          (false, "Date format must be YYYY-MM-DD.")
    end.

(** [amount = float(amount_str)] *)
Definition to_float (amount_str : string) : M real := λ self,
  match float amount_str with
  | Some amount => (Return amount, self)
  | None => (Raise (ValueError "could not convert string to float"), self)
  end.

(** [update_expense_list] and [clear_entries] read the store again. *)
Definition update_expense_list : M unit :=
  get_expenses None None None;; ret ().

Definition load_categories_to_dropdown : M unit :=
  get_categories;; ret ().

Definition clear_entries : M unit := load_categories_to_dropdown.

Definition add_expense_gui
    (amount_entry category_var date_entry description_entry : string) : M unit :=
  let amount_str := strip amount_entry in
  let category_name := strip category_var in
  let date_str := strip date_entry in
  let description := strip description_entry in
  let '(is_valid, message) := _validate_input amount_str category_name date_str in
  if negb is_valid then
    emit (showerror "Input Error" message)
  else
    amount <- to_float amount_str;;
    ok <- add_expense amount category_name date_str description;;
    if ok : bool then update_expense_list;; clear_entries else ret ().

(** [selected] is the id in the selected row of the list, if one is
    selected; [confirm] is the user's answer to [askyesno]. *)
Definition update_expense_gui (selected : option Z) (confirm : bool)
    (amount_entry category_var date_entry description_entry : string) : M unit :=
  match selected with
  | None =>
      emit (showwarning "No Selection"
              "Please select an expense from the list to update.")
  | Some expense_id =>
      let amount_str := strip amount_entry in
      let category_name := strip category_var in
      let date_str := strip date_entry in
      let description := strip description_entry in
      let '(is_valid, message) :=
        _validate_input amount_str category_name date_str in
      if negb is_valid then
        emit (showerror "Input Error" message)
      else
        amount <- to_float amount_str;;
        if confirm then
          ok <- update_expense expense_id amount category_name date_str
                  description;;
          if ok : bool then update_expense_list;; clear_entries else ret ()
        else ret ()
  end.

Definition delete_expense_gui (selected : option Z) (confirm : bool) : M unit :=
  match selected with
  | None =>
      emit (showwarning "No Selection"
              "Please select an expense from the list to delete.")
  | Some expense_id =>
      if confirm then
        ok <- delete_expense expense_id;;
        if flag_truthy ok then update_expense_list;; clear_entries else ret ()
      else ret ()
  end.
End Presentation.

(** ** The report view *)

(** What [generate_report_gui] puts on the screen: the information dialog
    "No expense data available", or a bar chart of the amounts over the
    categories. *)
Inductive chart (real : Type) :=
  | NoData
  | Bar (categories : list string) (amounts : list real).
Arguments NoData {real}.
Arguments Bar {real} categories amounts.

Section Report.
Context {real : Type} `{!NaN real} (add : real → real → real) (zero : real).

(** [spending_data = self.db.get_spending_by_category()], then
    [if not spending_data: ... return], else
    [ax.bar(list(spending_data.keys()), list(spending_data.values()))]. *)
Definition generate_report_gui : M real (chart real) :=
  spending_data <- get_spending_by_category add zero None None;;
  match spending_data with
  | [] => ret NoData
  | _ :: _ => ret (Bar (dict_keys spending_data) spending_data.*2)
  end.
End Report.

(** * Specification-side notions *)

Section Notions.
Context {real : Type} `{!NaN real} (add : real → real → real) (zero : real).

(** A store in working order: the connection is open on a database that
    has both tables.  [log] is what has been shown so far. *)
Definition connected (c : table string) (e : table (expense real))
    (log : list event) : ExpenseTrackerDB real :=
  Self (Some (Database (Tables (Some c) (Some e)))) log.

(** The category names of a table. *)
Definition names (c : table string) : list string := (scan c).*2.

(** [r] is the expense with rowid [r_id r], read together with the name of
    the category it refers to. *)
Definition is_expense (c : table string) (e : table (expense real))
    (r : record real) : Prop :=
  ∃ row, rows e !! r_id r = Some row
         ∧ rows c !! e_category_id row = Some (r_name r)
         ∧ r_amount r = e_amount row
         ∧ r_date r = e_date row
         ∧ r_description r = e_description row.

(** The filters of [getExpenses] read literally: every argument that is
    given is a condition. *)
Definition passes_literally (start_date end_date category_name : option string)
    (r : record real) : Prop :=
  (∀ s, start_date = Some s → String.le s (r_date r))
  ∧ (∀ s, end_date = Some s → String.le (r_date r) s)
  ∧ (∀ s, category_name = Some s → r_name r = s).

(** The same, where an argument that is the empty string is no
    condition. *)
Definition passes (start_date end_date category_name : option string)
    (r : record real) : Prop :=
  (∀ s, start_date = Some s → s ≠ "" → String.le s (r_date r))
  ∧ (∀ s, end_date = Some s → s ≠ "" → String.le (r_date r) s)
  ∧ (∀ s, category_name = Some s → s ≠ "" → r_name r = s).

(** The sum of the amounts of a list of records, taken from zero in the
    order of the list. *)
Definition total_amount (l : list (record real)) : real :=
  foldl add zero (r_amount <$> l).

(** The inclusive date range, read literally: a bound that is given is a
    bound. *)
Definition in_date_range (start_date end_date : option string) (d : string)
    : Prop :=
  (∀ s, start_date = Some s → String.le s d)
  ∧ (∀ s, end_date = Some s → String.le d s).

(** Strictly ascending names. *)
Definition name_lt (a b : string) : Prop := String.le a b ∧ a ≠ b.

(** What seeding makes of the categories table: each name of the list
    that is not there yet is inserted, in the order of the list; a name
    that is there only advances the counter. *)
Definition seed (c : table string) (l : list string) : table string :=
  foldl (λ c n, if has_nameb n c then ignore_row c else insert_row n c) c l.

(** Running the initialization [k] times. *)
Definition initialize (k : nat) (self : ExpenseTrackerDB real)
    : ExpenseTrackerDB real :=
  Nat.iter k (λ self, (_create_tables self).2) self.

(** C3 read literally, for one call on a store in working order. *)
Definition returns_literally_filtered (c : table string)
    (e : table (expense real)) (log : list event)
    (start_date end_date category_name : option string) : Prop :=
  ∃ l, (get_expenses start_date end_date category_name (connected c e log)).1
       = Return l
       ∧ ∀ r, r ∈ l ↔ is_expense c e r
                      ∧ passes_literally start_date end_date category_name r.

(** The value and the final state of a run. *)
Definition value {A : Type} (run : result A * ExpenseTrackerDB real) : result A :=
  run.1.
Definition state {A : Type} (run : result A * ExpenseTrackerDB real)
    : ExpenseTrackerDB real := run.2.
End Notions.

Arguments connected : simpl never.

(** ** Invariants of the tables *)

Section Invariants.
Context {real : Type}.

(** Every expense refers to a category that is there (what the FOREIGN KEY
    of the schema asks for). *)
Definition resolves (c : table string) (e : table (expense real)) : Prop :=
  ∀ i row, rows e !! i = Some row → is_Some (rows c !! e_category_id row).

(** The expense with a given id, joined with its category name. *)
Definition lookup_record (c : table string) (e : table (expense real)) (i : Z)
    : option (record real) :=
  row ← rows e !! i;
  name ← rows c !! e_category_id row;
  Some (Record_ i (e_amount row) name (e_date row) (e_description row)).
End Invariants.

(** ** Sample stores, with integer amounts *)

(** No integer is [nan]. *)
#[global] Instance Z_nan : NaN Z := λ _, false.

(** Amounts with one value that is not a number, [None]. *)
#[global] Instance option_Z_nan : NaN (option Z) := λ a, bool_decide (a = None).

Definition fresh_file : option (file Z) := Some (Database (Tables None None)).

Definition new_store : ExpenseTrackerDB Z :=
  state (__init__ fresh_file (Self None [])).

(** The scenario of the specification: lunch on the 10th, a second expense
    on the 12th. *)
Definition lunch_store : ExpenseTrackerDB Z :=
  state (add_expense 20 "Food" "2024-01-12" ""
           (state (add_expense 50 "Food" "2024-01-10" "Lunch" new_store))).

(** The two tables of [lunch_store]. *)
Definition seeded : table string := seed empty_table default_categories.

Definition two_expenses : table (expense Z) :=
  insert_row (Expense 20 1 "2024-01-12" "")
    (insert_row (Expense 50 1 "2024-01-10" "Lunch") empty_table).

(** A form whose amount field converts only for the text [-5]; no
    stripping, every date accepted. *)
Definition minus_five_float (s : string) : option Z :=
  if String.eqb s "-5" then Some (-5) else None.

(** The same form, converting the text [5] as well. *)
Definition five_float (s : string) : option Z :=
  if String.eqb s "5" then Some 5 else minus_five_float s.

Definition minus_five_strip (s : string) : string := s.

Definition minus_five_strptime (s : string) : bool := true.

Definition broken_store : ExpenseTrackerDB Z :=
  state (__init__ (Some NotADatabase) (Self None [])).

Definition offline_store : ExpenseTrackerDB Z :=
  state (__init__ None (Self None [])).

(** * Properties *)

Example new_store_categories :
  value (get_categories new_store)
  = Return ["Entertainment"; "Food"; "Other"; "Rent"; "Salary"; "Shopping";
            "Transport"; "Utilities"].
Proof. vm_compute. reflexivity. Qed.

Example lunch_store_expenses :
  value (get_expenses None None None lunch_store)
  = Return [Record_ 2 20 "Food" "2024-01-12" "";
            Record_ 1 50 "Food" "2024-01-10" "Lunch"].
Proof. vm_compute. reflexivity. Qed.

Example lunch_store_spending :
  value (get_spending_by_category Z.add 0 None None lunch_store)
  = Return [("Food", 70)].
Proof. vm_compute. reflexivity. Qed.

Example lunch_store_tables : lunch_store = connected seeded two_expenses [].
Proof. vm_compute. reflexivity. Qed.

Example broken_store_conn : conn broken_store = Some NotADatabase.
Proof. reflexivity. Qed.

Example offline_store_conn : conn offline_store = None.
Proof. reflexivity. Qed.

(** ** Sorting *)

Section Sorting.
Context {A : Type} (R : relation A) `{!∀ x y, Decision (R x y)}.

Lemma insert_by_Permutation (x : A) (l : list A) : insert_by R x l ≡ₚ x :: l.
Proof.
  induction l as [|y l IH]; simpl; [done|].
  destruct (decide (R x y)); [done|]. by rewrite IH, Permutation_swap.
Qed.

Lemma order_by_Permutation (l : list A) : order_by R l ≡ₚ l.
Proof.
  unfold order_by. induction l as [|x l IH]; simpl; [done|].
  by rewrite insert_by_Permutation, IH.
Qed.

Lemma HdRel_insert_by (x y : A) (l : list A) :
  R y x → HdRel R y l → HdRel R y (insert_by R x l).
Proof.
  intros Hyx Hhd. destruct Hhd as [|z l Hyz]; simpl; [by constructor|].
  destruct (decide (R x z)); by constructor.
Qed.

Lemma Sorted_insert_by `{!Total R} (x : A) (l : list A) :
  Sorted R l → Sorted R (insert_by R x l).
Proof.
  induction 1 as [|y l Hl IH Hhd]; simpl; [by repeat constructor|].
  destruct (decide (R x y)) as [Hxy|Hxy].
  - constructor; [by constructor|by constructor].
  - constructor; [done|]. apply HdRel_insert_by; [|done].
    by destruct (total R x y).
Qed.

Lemma Sorted_order_by `{!Total R} (l : list A) : Sorted R (order_by R l).
Proof.
  unfold order_by. induction l as [|x l IH]; simpl; [constructor|].
  by apply Sorted_insert_by.
Qed.

Lemma StronglySorted_order_by `{!Transitive R, !Total R} (l : list A) :
  StronglySorted R (order_by R l).
Proof. apply Sorted_StronglySorted; [done|apply Sorted_order_by]. Qed.
End Sorting.

Section Properties.
Context {real : Type} `{!NaN real} (add : real → real → real) (zero : real).

Implicit Types (self : ExpenseTrackerDB real) (c : table string)
  (e : table (expense real)) (log : list event) (r : record real).

(** ** Empty optional arguments *)

Lemma truthy_empty : truthy (Some "") = false.
Proof. reflexivity. Qed.

Lemma truthy_Some s : s ≠ "" → truthy (Some s) = true.
Proof.
  intros Hs. simpl. destruct (String.eqb_spec s ""); [done|reflexivity].
Qed.

(** C9. An empty string passed for an optional filter argument of
    [get_expenses] (start date, end date, category name) or of
    [get_spending_by_category] (start date, end date) behaves exactly as
    the absent argument does: same result, same final state.  In
    particular filtering by the empty category name returns what no
    category filter returns. *)
Theorem empty_string_filter_is_absent self (a b c : option string) :
  get_expenses (Some "") b c self = get_expenses None b c self
  ∧ get_expenses a (Some "") c self = get_expenses a None c self
  ∧ get_expenses a b (Some "") self = get_expenses a b None self
  ∧ get_spending_by_category add zero (Some "") b self
    = get_spending_by_category add zero None b self
  ∧ get_spending_by_category add zero a (Some "") self
    = get_spending_by_category add zero a None self.
Proof.
  unfold get_expenses, get_spending_by_category,
    expenses_conditions, spending_conditions.
  rewrite truthy_empty. repeat split; reflexivity.
Qed.

(** ** Tables *)

Lemma elem_of_le_foldr_max (l : list Z) (i : Z) : i ∈ l → i ≤ foldr Z.max 0 l.
Proof.
  induction l as [|j l IH]; intros Hi.
  - by apply elem_of_nil in Hi.
  - apply elem_of_cons in Hi as [->|Hi]; simpl; [lia|].
    specialize (IH Hi). lia.
Qed.

Lemma scan_map_to_list {R : Type} (t : table R) : scan t ≡ₚ map_to_list (rows t).
Proof. apply order_by_Permutation. Qed.

Lemma elem_of_scan {R : Type} (t : table R) i x :
  (i, x) ∈ scan t ↔ rows t !! i = Some x.
Proof. rewrite scan_map_to_list. apply elem_of_map_to_list. Qed.

Lemma NoDup_fst_scan {R : Type} (t : table R) : NoDup (scan t).*1.
Proof. rewrite scan_map_to_list. apply NoDup_fst_map_to_list. Qed.

Lemma length_scan {R : Type} (t : table R) : length (scan t) = size (rows t).
Proof. by rewrite scan_map_to_list, length_map_to_list. Qed.

Lemma lookup_le_max_rowid {R : Type} (t : table R) i x :
  rows t !! i = Some x → i ≤ max_rowid t.
Proof.
  intros Hi. apply elem_of_le_foldr_max.
  apply list_elem_of_fmap. exists (i, x). split; [done|].
  by apply elem_of_scan.
Qed.

Lemma next_rowid_fresh {R : Type} (t : table R) : rows t !! next_rowid t = None.
Proof.
  destruct (rows t !! next_rowid t) as [x|] eqn:Hi; [|done].
  apply lookup_le_max_rowid in Hi. unfold next_rowid in Hi. lia.
Qed.

Lemma scan_insert_row {R : Type} (x : R) (t : table R) :
  scan (insert_row x t) ≡ₚ (next_rowid t, x) :: scan t.
Proof.
  rewrite !scan_map_to_list. unfold insert_row. simpl.
  apply map_to_list_insert, next_rowid_fresh.
Qed.

Lemma elem_of_names c n : n ∈ names c ↔ ∃ i, rows c !! i = Some n.
Proof.
  unfold names. rewrite list_elem_of_fmap. split.
  - intros [[i m] [-> Hin]]. exists i. by apply elem_of_scan.
  - intros [i Hi]. exists (i, n). split; [done|]. by apply elem_of_scan.
Qed.

(** ** The join *)

Lemma elem_of_join c e r : r ∈ join e c ↔ is_expense c e r.
Proof.
  unfold join, is_expense. rewrite list_elem_of_omap. split.
  - intros [[i row] [Hin Hrow]]. apply elem_of_scan in Hin.
    unfold join_row in Hrow. simpl in Hrow.
    destruct (rows c !! e_category_id row) as [n|] eqn:Hn; [|done].
    simpl in Hrow. injection Hrow as <-. simpl. by exists row.
  - intros (row & Hrow & Hn & Ha & Hd & Hs). exists (r_id r, row).
    split; [by apply elem_of_scan|].
    unfold join_row. simpl. rewrite Hn. simpl.
    destruct r; simpl in *. by subst.
Qed.

Lemma join_row_id c row r : join_row c row = Some r → r_id r = row.1.
Proof.
  unfold join_row. destruct (rows c !! _); simpl; [|done].
  by intros [= <-].
Qed.

Lemma NoDup_omap_ids c (l : list (Z * expense real)) :
  NoDup l.*1 → NoDup (r_id <$> omap (join_row c) l).
Proof.
  induction l as [|row l IH]; simpl; [constructor|].
  rewrite NoDup_cons. intros [Hnotin Hnd].
  destruct (join_row c row) as [r|] eqn:Hr; simpl; [|by apply IH].
  apply NoDup_cons. split; [|by apply IH].
  intros Hin. apply Hnotin.
  apply list_elem_of_fmap in Hin as (r' & Hid & Hin').
  apply list_elem_of_omap in Hin' as (row' & Hin' & Hr').
  apply join_row_id in Hr, Hr'. apply list_elem_of_fmap.
  exists row'. split; [congruence|done].
Qed.

Lemma NoDup_join_ids c e : NoDup (r_id <$> join e c).
Proof. apply NoDup_omap_ids, NoDup_fst_scan. Qed.

Lemma NoDup_join c e : NoDup (join e c).
Proof. eapply NoDup_fmap_1, NoDup_join_ids. Qed.

Lemma join_insert_row c e x :
  join (insert_row x e) c ≡ₚ omap (join_row c) [(next_rowid e, x)] ++ join e c.
Proof.
  unfold join. rewrite scan_insert_row. simpl.
  by destruct (join_row c _).
Qed.

(** ** Ordering by date *)

#[local] Instance date_desc_total : Total (@date_desc real).
Proof. intros r1 r2. unfold date_desc. apply (total String.le). Qed.

#[local] Instance date_desc_trans : Transitive (@date_desc real).
Proof. intros r1 r2 r3 H12 H23. unfold date_desc in *. by etrans. Qed.

Lemma order_by_date_desc_perm (l : list (record real)) :
  order_by_date_desc l ≡ₚ l.
Proof. apply order_by_Permutation. Qed.

Lemma order_by_date_desc_sorted (l : list (record real)) :
  Sorted date_desc (order_by_date_desc l).
Proof. apply (Sorted_order_by _). Qed.

(** ** Resolving a category name *)

Lemma category_id_Some c n i :
  fst <$> head (filter (λ row, row.2 = n) (scan c)) = Some i →
  rows c !! i = Some n.
Proof.
  destruct (head _) as [[j m]|] eqn:Hhead; [|done].
  intros [= ->]. apply head_Some_elem_of, list_elem_of_filter in Hhead.
  destruct Hhead as [Hm Hin]. simpl in Hm. subst m. by apply elem_of_scan.
Qed.

Lemma category_id_None c n :
  fst <$> head (filter (λ row, row.2 = n) (scan c)) = None ↔ n ∉ names c.
Proof.
  rewrite fmap_None, head_None. split.
  - intros Hnil Hin. apply list_elem_of_fmap in Hin as ([i m] & -> & Hin).
    by apply (filter_nil_not_elem_of _ _ (i, m) Hnil).
  - intros Hnotin. destruct (filter _ _) as [|[i m] l] eqn:Hf; [done|].
    exfalso. apply Hnotin.
    assert ((i, m) ∈ filter (λ row, row.2 = n) (scan c)) as Hin
      by (rewrite Hf; left).
    apply list_elem_of_filter in Hin as [Hm Hin]. simpl in Hm. subst m.
    apply list_elem_of_fmap. by exists (i, n).
Qed.

Lemma category_id_is_Some c n :
  n ∈ names c →
  ∃ i, fst <$> head (filter (λ row, row.2 = n) (scan c)) = Some i.
Proof.
  intros Hin. destruct (fst <$> head _) as [i|] eqn:Hi; [by exists i|].
  by apply category_id_None in Hi.
Qed.

(** ** The methods on a store in working order *)

Lemma get_categories_connected c e log :
  get_categories (connected c e log)
  = (Return (order_by String.le (names c)), connected c e log).
Proof. reflexivity. Qed.

Lemma get_expenses_connected c e log a b n :
  get_expenses a b n (connected c e log)
  = (Return (order_by_date_desc
               (where_ (expenses_conditions a b n) (join e c))),
     connected c e log).
Proof. reflexivity. Qed.

Lemma get_expense_by_id_connected c e log i :
  get_expense_by_id i (connected c e log)
  = (Return (head (filter (λ r, r_id r = i) (where_ [] (join e c)))),
     connected c e log).
Proof. reflexivity. Qed.

Lemma add_expense_connected c e log amount n d s :
  add_expense amount n d s (connected c e log)
  = match fst <$> head (filter (λ row, row.2 = n) (scan c)) with
    | Some i =>
        if is_nan amount
        then (Return false,
              connected c e
                (log ++ [showerror "Database Error"
                           ("Failed to add expense: " +:+ not_null_amount)]))
        else (Return true, connected c (insert_row (Expense amount i d s) e) log)
    | None => (Return false, connected c e (log ++ [category_not_found n]))
    end.
Proof.
  unfold connected, add_expense, guard_conn, try_except, bind,
    _get_category_id, execute, insert_expense.
  simpl. destruct (fst <$> head _); [|done]. by destruct (is_nan amount).
Qed.

Lemma update_expense_connected c e log i amount n d s :
  update_expense i amount n d s (connected c e log)
  = match fst <$> head (filter (λ row, row.2 = n) (scan c)) with
    | Some k =>
        if is_nan amount && bool_decide (is_Some (rows e !! i))
        then (Return false,
              connected c e
                (log ++ [showerror "Database Error"
                           ("Failed to update expense: " +:+ not_null_amount)]))
        else (Return true,
              connected c
                (Table (alter (λ _, Expense amount k d s) i (rows e)) (seq e)) log)
    | None => (Return false, connected c e (log ++ [category_not_found n]))
    end.
Proof.
  unfold connected, update_expense, guard_conn, try_except, bind,
    _get_category_id, execute, update_expense_row, select_category_id.
  cbn. destruct (fst <$> head _); [|done]. cbn.
  destruct (is_nan amount); [destruct (bool_decide (is_Some (rows e !! i)))|];
    reflexivity.
Qed.

Lemma delete_expense_connected c e log i :
  delete_expense i (connected c e log)
  = (Return (Bool true), connected c (Table (delete i (rows e)) (seq e)) log).
Proof. reflexivity. Qed.

Lemma where_nil (l : list (record real)) : where_ [] l = l.
Proof.
  unfold where_. induction l as [|r l IH]; [done|].
  rewrite filter_cons_True by constructor. by rewrite IH.
Qed.

(** ** Lookup by id *)

Lemma filter_id_nil (l : list (record real)) i :
  i ∉ r_id <$> l → filter (λ r, r_id r = i) l = [].
Proof.
  intros Hnotin. induction l as [|r l IH]; [done|].
  rewrite fmap_cons, not_elem_of_cons in Hnotin. destruct Hnotin as [Hne Hl].
  rewrite filter_cons_False by (intros Heq; by apply Hne). by apply IH.
Qed.

Lemma filter_id_singleton (l : list (record real)) r :
  NoDup (r_id <$> l) → r ∈ l → filter (λ r', r_id r' = r_id r) l = [r].
Proof.
  induction l as [|r' l IH]; intros Hnd Hin; [by apply elem_of_nil in Hin|].
  rewrite fmap_cons, NoDup_cons in Hnd. destruct Hnd as [Hnotin Hnd].
  apply elem_of_cons in Hin as [->|Hin].
  - rewrite filter_cons_True by done. by rewrite filter_id_nil.
  - rewrite filter_cons_False; [by apply IH|].
    intros Heq. apply Hnotin. rewrite Heq. by apply list_elem_of_fmap_2.
Qed.

Lemma get_expense_by_id_found c e log r :
  is_expense c e r →
  get_expense_by_id (r_id r) (connected c e log) = (Return (Some r), connected c e log).
Proof.
  intros Hr. rewrite get_expense_by_id_connected, where_nil.
  rewrite filter_id_singleton; [done|apply NoDup_join_ids|by apply elem_of_join].
Qed.

Lemma get_expense_by_id_missing c e log i :
  rows e !! i = None →
  get_expense_by_id i (connected c e log) = (Return None, connected c e log).
Proof.
  intros Hi. rewrite get_expense_by_id_connected, where_nil.
  rewrite filter_id_nil; [done|].
  intros Hin. apply list_elem_of_fmap in Hin as (r & -> & Hin).
  apply elem_of_join in Hin as (row & Hrow & _). congruence.
Qed.

(** ** Adding with an unknown category *)

(** C6. If the category name is absent from what [get_categories]
    returns, [add_expense] returns [False], leaves the connection and the
    database as they are, and [get_expenses] returns afterwards what it
    returned before, so its count is the same.  This holds in every state
    of the store, the degraded ones included. *)
Theorem add_expense_unknown_category self amount category_name date description
    (known : list string) :
  value (get_categories self) = Return known →
  category_name ∉ known →
  let after := add_expense amount category_name date description self in
  value after = Return false
  ∧ conn (state after) = conn self
  ∧ value (get_expenses None None None (state after))
    = value (get_expenses None None None self)
  ∧ (∀ l l', value (get_expenses None None None self) = Return l →
             value (get_expenses None None None (state after)) = Return l' →
             length l' = length l).
Proof.
  intros Hknown Hnotin after.
  assert (value after = Return false ∧ conn (state after) = conn self
          ∧ value (get_expenses None None None (state after))
            = value (get_expenses None None None self)) as (H1 & H2 & H3).
  { subst after. destruct self as [[[|[[c|] [e|]]]|] log];
      try (repeat split; reflexivity).
    - injection Hknown as <-.
      assert (category_name ∉ names c) as Hc
        by (by rewrite <- (order_by_Permutation String.le (names c))).
      apply category_id_None in Hc.
      fold (connected c e log). rewrite add_expense_connected, Hc.
      repeat split; reflexivity.
    - injection Hknown as <-.
      assert (category_name ∉ names c) as Hc
        by (by rewrite <- (order_by_Permutation String.le (names c))).
      apply category_id_None in Hc.
      unfold add_expense, guard_conn, try_except, bind, _get_category_id,
        execute, select_category_id. simpl.
      rewrite Hc. repeat split; reflexivity. }
  repeat split; [done..|].
  intros l l' Hl Hl'. rewrite H3, Hl in Hl'. by injection Hl' as <-.
Qed.

(** ** Deleting *)

(** C7. After [delete_expense] has returned [True] for an id,
    [get_expense_by_id] returns [None] for it, and deleting the same id
    again returns [True] again. *)
Theorem delete_expense_idempotent self expense_id :
  value (delete_expense expense_id self) = Return (Bool true) →
  let after := state (delete_expense expense_id self) in
  value (get_expense_by_id expense_id after) = Return None
  ∧ value (delete_expense expense_id after) = Return (Bool true).
Proof.
  intros Hdel after. subst after.
  destruct self as [[[|[[c|] [e|]]]|] log]; try discriminate Hdel.
  - fold (connected c e log). rewrite delete_expense_connected.
    unfold state, value. cbn [fst snd]. split; [|reflexivity].
    rewrite get_expense_by_id_missing; [done|]. simpl. apply lookup_delete_eq.
  - split; reflexivity.
Qed.

(** ** Storage errors *)

Lemma get_category_id_broken log n :
  _get_category_id n (Self (Some NotADatabase) log : ExpenseTrackerDB real)
  = (Raise (sqlite3_Error "file is not a database"), Self (Some NotADatabase) log).
Proof. reflexivity. Qed.

(** C8, at the input where it fails.  On a file that is not a database
    the connection opens, every statement raises [sqlite3.Error], and the
    handler of [delete_expense] returns an empty list where the other
    writes return [False]. *)
Theorem delete_expense_error_returns_list (expense_id : Z) :
  let self : ExpenseTrackerDB real :=
    state (__init__ (Some NotADatabase) (Self None [])) in
  conn self = Some NotADatabase
  ∧ value (delete_expense expense_id self) = Return EmptyList
  ∧ value (delete_expense expense_id self) ≠ Return (Bool false)
  ∧ (∀ amount n d s, value (add_expense amount n d s self) = Return false)
  ∧ (∀ amount n d s,
       value (update_expense expense_id amount n d s self) = Return false).
Proof. repeat split; done. Qed.

(** The rest of C8 holds.  No method lets an error of the storage layer
    escape: whatever the statements raise is caught. *)
Lemma methods_never_raise self :
  (∀ amount n d s, ∃ b, value (add_expense amount n d s self) = Return b)
  ∧ (∀ i amount n d s, ∃ b, value (update_expense i amount n d s self) = Return b)
  ∧ (∀ i, ∃ v, value (delete_expense i self) = Return v)
  ∧ (∀ a b n, ∃ l, value (get_expenses a b n self) = Return l)
  ∧ (∀ i, ∃ o, value (get_expense_by_id i self) = Return o)
  ∧ (∃ l, value (get_categories self) = Return l)
  ∧ (∀ a b, ∃ d, value (get_spending_by_category add zero a b self) = Return d).
Proof.
  destruct self as [[[|[[c|] [e|]]]|] log]; repeat split; intros;
    try (eexists; reflexivity).
  - fold (connected c e log). rewrite add_expense_connected.
    destruct (fst <$> head _); [destruct (is_nan amount)|]; eexists; reflexivity.
  - fold (connected c e log). rewrite update_expense_connected.
    destruct (fst <$> head _); [destruct (is_nan amount && bool_decide _)|];
      eexists; reflexivity.
  - unfold add_expense, guard_conn, try_except, bind, _get_category_id,
      execute, select_category_id. simpl.
    destruct (fst <$> head _); eexists; reflexivity.
  - unfold update_expense, guard_conn, try_except, bind, _get_category_id,
      execute, select_category_id. simpl.
    destruct (fst <$> head _); eexists; reflexivity.
Qed.

(** With no connection every method returns its failure value and changes
    nothing. *)
Lemma methods_offline self :
  conn self = None →
  (∀ amount n d s, add_expense amount n d s self = (Return false, self))
  ∧ (∀ i amount n d s, update_expense i amount n d s self = (Return false, self))
  ∧ (∀ i, delete_expense i self = (Return (Bool false), self))
  ∧ (∀ a b n, get_expenses a b n self = (Return [], self))
  ∧ (∀ i, get_expense_by_id i self = (Return None, self))
  ∧ get_categories self = (Return [], self)
  ∧ (∀ a b, get_spending_by_category add zero a b self = (Return [], self)).
Proof.
  destruct self as [cn log]. simpl. intros ->. repeat split.
Qed.

(** ** Updating *)

(** C4, as the code has it.  In every state of the store, with a category
    name that is absent from what [get_categories] returns,
    [update_expense] returns [False] and leaves the connection and the
    database behind it as they are; with no connection it does nothing
    else, with one it shows one error dialog, which on a store in working
    order is the dialog naming the category.  On a store in working order,
    with a category name that resolves and an id (a signed 64-bit integer)
    that is not the id of an expense, it returns [True] and changes
    nothing. *)
Theorem update_expense_outcomes expense_id amount category_name date description :
  (∀ self (known : list string),
     value (get_categories self) = Return known →
     category_name ∉ known →
     let after :=
       update_expense expense_id amount category_name date description self in
     value after = Return false
     ∧ conn (state after) = conn self
     ∧ (conn self = None → state after = self)
     ∧ (conn self ≠ None →
        ∃ title message,
          events (state after) = events self ++ [showerror title message]))
  ∧ (∀ c e log,
       category_name ∉ names c →
       update_expense expense_id amount category_name date description
         (connected c e log)
       = (Return false, connected c e (log ++ [category_not_found category_name])))
  ∧ (∀ c e log,
       category_name ∈ names c → int64 expense_id →
       rows e !! expense_id = None →
       update_expense expense_id amount category_name date description
         (connected c e log)
       = (Return true, connected c e log)).
Proof.
  split; [|split].
  - intros self known Hknown Hnotin after. subst after.
    destruct self as [[[|[[c|] [e|]]]|] log];
      try (repeat split; try done; intros; by eexists _, _).
    + injection Hknown as <-.
      assert (category_name ∉ names c) as Hc
        by (by rewrite <- (order_by_Permutation String.le (names c))).
      apply category_id_None in Hc.
      fold (connected c e log). rewrite update_expense_connected, Hc.
      repeat split; try done. intros _. by eexists _, _.
    + injection Hknown as <-.
      assert (category_name ∉ names c) as Hc
        by (by rewrite <- (order_by_Permutation String.le (names c))).
      apply category_id_None in Hc.
      unfold update_expense, guard_conn, try_except, bind, _get_category_id,
        execute, select_category_id. simpl.
      rewrite Hc. repeat split; try done. intros _. by eexists _, _.
  - intros c e log Hc. apply category_id_None in Hc.
    by rewrite update_expense_connected, Hc.
  - intros c e log Hc _ Hid. apply category_id_is_Some in Hc as [k Hk].
    rewrite update_expense_connected, Hk.
    rewrite bool_decide_eq_false_2, andb_false_r
      by (rewrite Hid; by intros [x Hx]).
    rewrite alter_id by (intros row Hrow; congruence).
    by destruct e.
Qed.

(** ** Amounts *)

Section Validation.
Context (strip : string → string) (float : string → option real)
        (le_zero : real → bool) (strptime : string → bool).

Lemma validate_input_not_positive amount_str category_name date_str amount :
  float amount_str = Some amount → le_zero amount = true →
  ∃ message,
    _validate_input strip float le_zero strptime amount_str category_name date_str
    = (false, message).
Proof.
  intros Hfloat Hle. unfold _validate_input. rewrite Hfloat, Hle.
  destruct (String.eqb (strip amount_str) ""); eexists; reflexivity.
Qed.

(** C10. The store takes every number as an amount, zero and the
    negative ones included.  With a category name that exists, an amount
    that is a number (any float but [nan], which the engine stores as NULL
    and the column refuses) and a rowid left for the new row, [add_expense]
    returns [True] and the new expense is read back with that amount, and
    [update_expense] of an existing expense returns [True] and the expense
    is read back with that amount: no test on the sign of the amount is
    made.  The only test is in the callers: when the amount typed in
    converts to a number that is not positive, [add_expense_gui] and
    [update_expense_gui] show the validation message and return without
    touching the connection. *)
Theorem store_accepts_any_amount c e log amount category_name date description :
  category_name ∈ names c →
  is_nan amount = false →
  int64 (next_rowid e) →
  (∃ category_id,
     rows c !! category_id = Some category_name
     ∧ let row := Expense amount category_id date description in
       add_expense amount category_name date description (connected c e log)
       = (Return true, connected c (insert_row row e) log)
       ∧ value (get_expense_by_id (next_rowid e)
                  (connected c (insert_row row e) log))
         = Return (Some (Record_ (next_rowid e) amount category_name date
                           description))
       ∧ ∀ expense_id, int64 expense_id → is_Some (rows e !! expense_id) →
           let e' := Table (alter (λ _, row) expense_id (rows e)) (seq e) in
           update_expense expense_id amount category_name date description
             (connected c e log)
           = (Return true, connected c e' log)
           ∧ value (get_expense_by_id expense_id (connected c e' log))
             = Return (Some (Record_ expense_id amount category_name date
                               description)))
  ∧ (∀ self amount_entry typed category_var date_entry description_entry
       selected confirm,
       float (strip amount_entry) = Some typed →
       le_zero typed = true →
       ∃ message,
         add_expense_gui strip float le_zero strptime amount_entry category_var
           date_entry description_entry self
         = (Return (),
            Self (conn self) (events self ++ [showerror "Input Error" message]))
         ∧ update_expense_gui strip float le_zero strptime (Some selected)
             confirm amount_entry category_var date_entry description_entry self
           = (Return (),
              Self (conn self)
                (events self ++ [showerror "Input Error" message]))).
Proof.
  intros Hc Hnan _. split.
  - apply category_id_is_Some in Hc as [k Hk]. exists k.
    pose proof (category_id_Some _ _ _ Hk) as Hname.
    split; [done|]. intros row. split; [|split].
    + by rewrite add_expense_connected, Hk, Hnan.
    + pose proof (get_expense_by_id_found c (insert_row row e) log
                    (Record_ (next_rowid e) amount category_name date
                       description)) as Hget.
      simpl in Hget. rewrite Hget; [done|].
      exists row. simpl. by rewrite lookup_insert_eq.
    + intros expense_id _ [old Hold] e'. split.
      * by rewrite update_expense_connected, Hk, Hnan.
      * pose proof (get_expense_by_id_found c e' log
                      (Record_ expense_id amount category_name date
                         description)) as Hget.
        simpl in Hget. rewrite Hget; [done|].
        exists row. simpl. by rewrite lookup_alter_eq, Hold.
  - intros self amount_entry typed category_var date_entry description_entry
      selected confirm Hfloat Hle.
    destruct (validate_input_not_positive (strip amount_entry)
                (strip category_var) (strip date_entry) typed Hfloat Hle)
      as [message Hmsg].
    exists message. unfold add_expense_gui, update_expense_gui.
    rewrite Hmsg. split; reflexivity.
Qed.

(** The amount [nan] is refused by the column, not by a test of the
    store: with a category name that exists, [add_expense] returns [False],
    shows the error of the engine and stores nothing. *)
Lemma add_expense_nan c e log amount category_name date description :
  category_name ∈ names c →
  is_nan amount = true →
  add_expense amount category_name date description (connected c e log)
  = (Return false,
     connected c e
       (log ++ [showerror "Database Error"
                  ("Failed to add expense: " +:+ not_null_amount)])).
Proof.
  intros Hc Hnan. apply category_id_is_Some in Hc as [k Hk].
  by rewrite add_expense_connected, Hk, Hnan.
Qed.

Lemma update_expense_nan c e log expense_id amount category_name date description :
  category_name ∈ names c →
  is_nan amount = true →
  is_Some (rows e !! expense_id) →
  update_expense expense_id amount category_name date description
    (connected c e log)
  = (Return false,
     connected c e
       (log ++ [showerror "Database Error"
                  ("Failed to update expense: " +:+ not_null_amount)])).
Proof.
  intros Hc Hnan Hrow. apply category_id_is_Some in Hc as [k Hk].
  rewrite update_expense_connected, Hk, Hnan.
  by rewrite (bool_decide_eq_true_2 _ Hrow).
Qed.
End Validation.

(** ** Listing *)

Lemma holds_if_truthy r (arg : option string) (cond : string → condition) :
  Forall (holds r) (if truthy arg then [cond (param arg)] else [])
  ↔ (∀ s, arg = Some s → s ≠ "" → holds r (cond s)).
Proof.
  destruct arg as [s|].
  - destruct (decide (s = "")) as [->|Hs].
    + rewrite truthy_empty. split; [by intros _ s [= <-]|constructor].
    + rewrite truthy_Some by done. simpl. rewrite Forall_singleton.
      split; [by intros H s' [= <-]|auto].
  - simpl. split; [done|constructor].
Qed.

Lemma expenses_conditions_app (a b n : option string) :
  expenses_conditions a b n
  = (if truthy a then [date_ge (param a)] else [])
    ++ (if truthy b then [date_le (param b)] else [])
    ++ (if truthy n then [name_eq (param n)] else []).
Proof.
  unfold expenses_conditions.
  by destruct (truthy a), (truthy b), (truthy n).
Qed.

Lemma expenses_conditions_passes r (a b n : option string) :
  Forall (holds r) (expenses_conditions a b n) ↔ passes a b n r.
Proof.
  rewrite expenses_conditions_app, !Forall_app, !holds_if_truthy.
  reflexivity.
Qed.

(** C3, as the code has it.  On a store in working order [get_expenses]
    returns, each once, exactly the expenses (joined with their category
    name) that satisfy every filter given by an argument that is neither
    absent nor the empty string, newest date first, and leaves the store
    as it is. *)
Theorem get_expenses_filters c e log (start_date end_date category_name : option string) :
  ∃ l,
    get_expenses start_date end_date category_name (connected c e log)
    = (Return l, connected c e log)
    ∧ (∀ r, r ∈ l ↔ is_expense c e r ∧ passes start_date end_date category_name r)
    ∧ NoDup l
    ∧ Sorted date_desc l.
Proof.
  eexists. split; [apply get_expenses_connected|]. split; [|split].
  - intros r. rewrite order_by_date_desc_perm. unfold where_.
    rewrite list_elem_of_filter, elem_of_join, expenses_conditions_passes.
    tauto.
  - rewrite order_by_date_desc_perm. apply NoDup_filter, NoDup_join.
  - apply order_by_date_desc_sorted.
Qed.

(** C2. After [add_expense] has returned [True], [get_expenses()] returns
    what it returned before and one record more, which has a new id and the
    amount, category name, date and description that were given; and the
    list is sorted by date, newest first. *)
Theorem add_expense_adds_one_record self amount category_name date description :
  value (add_expense amount category_name date description self) = Return true →
  let after := state (add_expense amount category_name date description self) in
  ∃ l l' i,
    value (get_expenses None None None self) = Return l
    ∧ value (get_expenses None None None after) = Return l'
    ∧ l' ≡ₚ Record_ i amount category_name date description :: l
    ∧ (i ∉ r_id <$> l)
    ∧ Sorted date_desc l'.
Proof.
  intros Hadd after. subst after.
  destruct self as [[[|[[c|] [e|]]]|] log]; try discriminate Hadd.
  - fold (connected c e log) in *. rewrite add_expense_connected in *.
    destruct (fst <$> head _) as [k|] eqn:Hk; [|discriminate Hadd].
    destruct (is_nan amount); [discriminate Hadd|].
    apply category_id_Some in Hk.
    unfold state, value. cbn [fst snd]. rewrite !get_expenses_connected.
    cbn [fst snd]. change (expenses_conditions None None None)
      with (@nil (@condition)). rewrite !where_nil.
    eexists _, _, (next_rowid e). split; [done|]. split; [done|].
    split; [|split].
    + rewrite !order_by_date_desc_perm, join_insert_row. simpl.
      unfold join_row. simpl. by rewrite Hk.
    + rewrite order_by_date_desc_perm. intros Hin.
      apply list_elem_of_fmap in Hin as (r & Hid & Hin).
      apply elem_of_join in Hin as (row & Hrow & _).
      rewrite <- Hid, next_rowid_fresh in Hrow. discriminate Hrow.
    + apply order_by_date_desc_sorted.
  - exfalso. revert Hadd.
    unfold add_expense, guard_conn, try_except, bind, _get_category_id,
      execute, select_category_id. simpl.
    by destruct (fst <$> head _).
Qed.

(** ** Initialization *)




Lemma bind_Return {A B : Type} (m : M real A) (k : A → M real B) self a self' :
  m self = (Return a, self') → bind m k self = k a self'.
Proof. unfold bind. by intros ->. Qed.



















(** [ExpenseTrackerDB(db_name)] on a database is one run of the
    initialization. *)
Lemma init_database (tb : tables real) :
  state (__init__ (Some (Database tb)) (Self None []))
  = initialize 1 (Self (Some (Database tb)) []).
Proof.
  unfold __init__.
  erewrite bind_Return by reflexivity.
  erewrite bind_Return by reflexivity.
  reflexivity.
Qed.

(** ** Dictionaries *)

Lemma eqb_bool_decide (a b : string) : String.eqb a b = bool_decide (a = b).
Proof.
  destruct (String.eqb_spec a b) as [->|Hne].
  - by rewrite bool_decide_eq_true_2.
  - by rewrite bool_decide_eq_false_2.
Qed.

Lemma dict_get_cons {V : Type} k v (d : list (string * V)) n :
  dict_get ((k, v) :: d) n = if decide (n = k) then Some v else dict_get d n.
Proof.
  simpl. rewrite eqb_bool_decide.
  destruct (decide (n = k)) as [->|Hne];
    [by rewrite bool_decide_eq_true_2|by rewrite bool_decide_eq_false_2].
Qed.

Lemma dict_set_fresh {V : Type} k (v : V) d :
  k ∉ d.*1 → dict_set k v d = d ++ [(k, v)].
Proof.
  induction d as [|[k' v'] d IH]; intros Hk; [done|].
  rewrite fmap_cons, not_elem_of_cons in Hk. destruct Hk as [Hne Hk].
  simpl. rewrite eqb_bool_decide, bool_decide_eq_false_2 by done.
  by rewrite IH.
Qed.

Lemma foldl_dict_set {V : Type} (d rows : list (string * V)) :
  NoDup (d ++ rows).*1 →
  foldl (λ d row, dict_set row.1 row.2 d) d rows = d ++ rows.
Proof.
  revert d. induction rows as [|[k v] rows IH]; intros d Hnd.
  - by rewrite app_nil_r.
  - simpl. rewrite dict_set_fresh.
    + rewrite IH; by rewrite <- app_assoc.
    + rewrite fmap_app, fmap_cons in Hnd.
      apply NoDup_app in Hnd as (_ & Hdisj & _).
      intros Hin. apply (Hdisj k Hin). left.
Qed.

Lemma dict_of_rows_id {V : Type} (rows : list (string * V)) :
  NoDup rows.*1 → dict_of_rows rows = rows.
Proof. intros Hnd. by apply (foldl_dict_set []). Qed.

Lemma name_lt_NoDup (l : list string) : StronglySorted name_lt l → NoDup l.
Proof.
  induction 1 as [|k l Hl IH Hall]; constructor; [|done].
  intros Hin. rewrite Forall_forall in Hall. by destruct (Hall k Hin).
Qed.

(** ** Grouping *)

#[local] Instance name_asc_total : Total (@name_asc real).
Proof. intros r1 r2. unfold name_asc. apply (total String.le). Qed.

#[local] Instance name_asc_trans : Transitive (@name_asc real).
Proof. intros r1 r2 r3 H12 H23. unfold name_asc in *. by etrans. Qed.

Lemma filter_name_cons_eq r (l : list (record real)) :
  filter (λ r', r_name r' = r_name r) (r :: l)
  = r :: filter (λ r', r_name r' = r_name r) l.
Proof. by rewrite filter_cons_True. Qed.

Lemma filter_name_cons_ne r (l : list (record real)) n :
  r_name r ≠ n →
  filter (λ r', r_name r' = n) (r :: l) = filter (λ r', r_name r' = n) l.
Proof. intros Hne. by rewrite filter_cons_False. Qed.

Lemma filter_name_above (l : list (record real)) name k :
  String.le name k → name ≠ k →
  (∀ r, r ∈ l → String.le k (r_name r)) →
  filter (λ r, r_name r = name) l = [].
Proof.
  intros Hle Hne Hall. induction l as [|r l IH]; [done|].
  rewrite filter_name_cons_ne.
  - apply IH. intros r' Hr'. apply Hall. by right.
  - intros Heq. apply Hne. apply (anti_symm String.le); [done|].
    rewrite <- Heq. apply Hall. left.
Qed.

Lemma sum_groups_nil name acc : sum_groups add zero name acc [] = [(name, acc)].
Proof. reflexivity. Qed.

Lemma sum_groups_cons name acc r (l : list (record real)) :
  sum_groups add zero name acc (r :: l)
  = if decide (r_name r = name)
    then sum_groups add zero name (add acc (r_amount r)) l
    else (name, acc) :: sum_groups add zero (r_name r) (add zero (r_amount r)) l.
Proof. reflexivity. Qed.

(** One pass over rows sorted by name, all at or above the current
    name: the current group gets the running total continued, every other
    name that occurs gets the total of its rows, and the names come out
    strictly ascending. *)
Lemma sum_groups_spec (l : list (record real)) name acc :
  StronglySorted name_asc l →
  (∀ r, r ∈ l → String.le name (r_name r)) →
  (∀ n, dict_get (sum_groups add zero name acc l) n
        = if decide (n = name)
          then Some (foldl add acc
                       (r_amount <$> filter (λ r, r_name r = n) l))
          else match filter (λ r, r_name r = n) l with
               | [] => None
               | r :: g => Some (total_amount add zero (r :: g))
               end)
  ∧ StronglySorted name_lt (dict_keys (sum_groups add zero name acc l))
  ∧ (∀ k, k ∈ dict_keys (sum_groups add zero name acc l) →
          k = name ∨ ∃ r, r ∈ l ∧ r_name r = k).
Proof.
  revert name acc. induction l as [|r l IH]; intros name acc Hsorted Hlow.
  - rewrite sum_groups_nil. split; [|split].
    + intros n. rewrite dict_get_cons. by destruct (decide (n = name)).
    + repeat constructor.
    + intros k Hk. apply list_elem_of_singleton in Hk. by left.
  - apply StronglySorted_cons in Hsorted as [Hr Hsorted].
    rewrite Forall_forall in Hr. rewrite sum_groups_cons.
    destruct (decide (r_name r = name)) as [Heq|Hne].
    + destruct (IH name (add acc (r_amount r)) Hsorted) as (Hget & Hkeys & Hin).
      { intros r' Hr'. apply Hlow. by right. }
      split; [|split; [done|]].
      * intros n. rewrite Hget. destruct (decide (n = name)) as [->|Hn].
        -- rewrite <- Heq, filter_name_cons_eq. by rewrite Heq.
        -- rewrite filter_name_cons_ne by congruence. done.
      * intros k Hk. destruct (Hin k Hk) as [->|(r' & Hr' & Hk')];
          [by left|right]. exists r'. split; [by right|done].
    + destruct (IH (r_name r) (add zero (r_amount r)) Hsorted)
        as (Hget & Hkeys & Hin).
      { intros r' Hr'. by apply Hr. }
      assert (String.le name (r_name r)) as Hle by (apply Hlow; left).
      assert (∀ k, k ∈ dict_keys (sum_groups add zero (r_name r)
                                    (add zero (r_amount r)) l) →
                   name_lt name k) as Habove.
      { intros k Hk. destruct (Hin k Hk) as [->|(r' & Hr' & <-)].
        - split; [done|congruence].
        - assert (String.le (r_name r) (r_name r')) as Hrr' by (by apply Hr).
          split; [by etrans|]. intros Heq. apply Hne.
          apply (anti_symm String.le); [|done]. by rewrite Heq. }
      split; [|split].
      * intros n. rewrite dict_get_cons. destruct (decide (n = name)) as [->|Hn].
        -- rewrite (filter_name_above (r :: l) name (r_name r)); [done..| |];
             [congruence|].
           intros r' Hr'. apply elem_of_cons in Hr' as [->|Hr']; [done|].
           by apply Hr.
        -- rewrite Hget. destruct (decide (n = r_name r)) as [->|Hn'].
           ++ by rewrite filter_name_cons_eq.
           ++ by rewrite filter_name_cons_ne by congruence.
      * unfold dict_keys in *. rewrite fmap_cons. simpl.
        apply StronglySorted_cons. split; [|done].
        apply Forall_forall. intros k Hk. by apply Habove.
      * intros k Hk. unfold dict_keys in *. rewrite fmap_cons in Hk. simpl in Hk.
        apply elem_of_cons in Hk as [->|Hk]; [by left|right].
        destruct (Hin k Hk) as [->|(r' & Hr' & Hk')].
        -- exists r. split; [left|done].
        -- exists r'. split; [by right|done].
Qed.

Lemma group_by_name_spec (l : list (record real)) :
  (∀ n, dict_get (group_by_name add zero l) n
        = match filter (λ r, r_name r = n) (order_by name_asc l) with
          | [] => None
          | r :: g => Some (total_amount add zero (r :: g))
          end)
  ∧ StronglySorted name_lt (dict_keys (group_by_name add zero l)).
Proof.
  unfold group_by_name.
  pose proof (StronglySorted_order_by name_asc l) as Hsorted.
  destruct (order_by name_asc l) as [|r s].
  - split; [done|constructor].
  - apply StronglySorted_cons in Hsorted as [Hr Hs].
    rewrite Forall_forall in Hr.
    destruct (sum_groups_spec s (r_name r) (add zero (r_amount r)) Hs)
      as (Hget & Hkeys & _); [done|].
    split; [|done]. intros n. rewrite Hget.
    destruct (decide (n = r_name r)) as [->|Hn].
    + by rewrite filter_name_cons_eq.
    + by rewrite filter_name_cons_ne by congruence.
Qed.

Lemma get_spending_by_category_connected c e log (a b : option string) :
  get_spending_by_category add zero a b (connected c e log)
  = (Return (dict_of_rows
               (group_by_name add zero
                  (where_ (spending_conditions a b) (join e c)))),
     connected c e log).
Proof. reflexivity. Qed.

(** ** The date range *)

Lemma le_empty (d : string) : String.le "" d.
Proof. by destruct d. Qed.

Lemma spending_conditions_app (a b : option string) :
  spending_conditions a b
  = (if truthy a then [date_ge (param a)] else [])
    ++ (if truthy b then [date_le (param b)] else []).
Proof. unfold spending_conditions. by destruct (truthy a), (truthy b). Qed.

Lemma spending_conditions_range r (a b : option string) :
  b ≠ Some "" →
  Forall (holds r) (spending_conditions a b) ↔ in_date_range a b (r_date r).
Proof.
  intros Hb. rewrite spending_conditions_app, Forall_app, !holds_if_truthy.
  unfold in_date_range. simpl. split; intros [Ha Hb']; split.
  - intros s Hs. destruct (decide (s = "")) as [->|Hne];
      [apply le_empty|by apply Ha].
  - intros s Hs. apply Hb'; [done|]. intros ->. by apply Hb.
  - intros s Hs _. by apply Ha.
  - intros s Hs _. by apply Hb'.
Qed.

(** ** The report *)

(** C1. On a store in working order, with an end date that, when given,
    is not the empty string, [get_spending_by_category] returns a
    dictionary in which
    - a name that is a key has as its value the sum of the amounts of the
      expenses that refer to a category of that name and whose date is in
      the inclusive range, each expense counted once (the list [g]
      enumerates exactly them, in the order in which they are added up),
      and there is at least one of them;
    - a name that is not a key has no such expense;
    - the keys are in strictly ascending order of name.
    The store is left as it is. *)
Theorem spending_by_category c e log (start_date end_date : option string) :
  end_date ≠ Some "" →
  ∃ d,
    get_spending_by_category add zero start_date end_date (connected c e log)
    = (Return d, connected c e log)
    ∧ (∀ n,
         match dict_get d n with
         | Some v =>
             ∃ g, g ≠ [] ∧ NoDup g
                  ∧ (∀ r, r ∈ g ↔ is_expense c e r ∧ r_name r = n
                                  ∧ in_date_range start_date end_date (r_date r))
                  ∧ v = total_amount add zero g
         | None =>
             ∀ r, is_expense c e r →
                  in_date_range start_date end_date (r_date r) → r_name r ≠ n
         end)
    ∧ StronglySorted name_lt (dict_keys d).
Proof.
  intros Hend. eexists. split; [apply get_spending_by_category_connected|].
  set (l := where_ (spending_conditions start_date end_date) (join e c)).
  destruct (group_by_name_spec l) as [Hget Hkeys].
  rewrite dict_of_rows_id by (by apply name_lt_NoDup).
  split; [|done]. intros n. rewrite Hget.
  assert (∀ r, r ∈ filter (λ r, r_name r = n) (order_by name_asc l)
               ↔ is_expense c e r ∧ r_name r = n
                 ∧ in_date_range start_date end_date (r_date r)) as Hin.
  { intros r. rewrite list_elem_of_filter, order_by_Permutation.
    unfold l, where_.
    rewrite list_elem_of_filter, elem_of_join, spending_conditions_range by done.
    tauto. }
  destruct (filter _ (order_by name_asc l)) as [|r g] eqn:Hg.
  - intros r Hr Hrange Hname.
    assert (r ∈ @nil (record real)) as Hnil by (apply Hin; done).
    by apply elem_of_nil in Hnil.
  - exists (r :: g). split; [done|]. split; [|done].
    rewrite <- Hg. apply NoDup_filter.
    rewrite order_by_Permutation. apply NoDup_filter, NoDup_join.
Qed.
End Properties.

(** * The properties on the sample stores *)

Lemma Food_in_seeded : "Food" ∈ names seeded.
Proof. apply (bool_decide_unpack ("Food" ∈ names seeded)). by vm_compute. Qed.

Lemma Travel_not_in_seeded : "Travel" ∉ names seeded.
Proof. apply (bool_decide_unpack ("Travel" ∉ names seeded)). by vm_compute. Qed.

Lemma no_expense_7 : rows two_expenses !! 7 = None.
Proof. vm_compute. reflexivity. Qed.

(** C1 on the scenario of the specification, for the range that ends on
    the 11th. *)
Lemma spending_by_category_witness :
  Some "2024-01-11" ≠ Some ""
  ∧ ∃ d,
      get_spending_by_category Z.add 0 None (Some "2024-01-11")
        (connected seeded two_expenses [])
      = (Return d, connected seeded two_expenses [])
      ∧ (∀ n,
           match dict_get d n with
           | Some v =>
               ∃ g, g ≠ [] ∧ NoDup g
                    ∧ (∀ r, r ∈ g ↔ is_expense seeded two_expenses r ∧ r_name r = n
                                    ∧ in_date_range None (Some "2024-01-11") (r_date r))
                    ∧ v = total_amount Z.add 0 g
           | None =>
               ∀ r, is_expense seeded two_expenses r →
                    in_date_range None (Some "2024-01-11") (r_date r) → r_name r ≠ n
           end)
      ∧ StronglySorted name_lt (dict_keys d).
Proof.
  split; [discriminate|].
  apply (spending_by_category Z.add 0 seeded two_expenses [] None
           (Some "2024-01-11")).
  discriminate.
Defined.

Example spending_until_the_11th :
  value (get_spending_by_category Z.add 0 None (Some "2024-01-11") lunch_store)
  = Return [("Food", 50)].
Proof. vm_compute. reflexivity. Qed.

(** C2 on the new store: the first expense. *)
Lemma add_expense_adds_one_record_witness :
  value (add_expense 50 "Food" "2024-01-10" "Lunch" new_store) = Return true
  ∧ ∃ l l' i,
      value (get_expenses None None None new_store) = Return l
      ∧ value (get_expenses None None None
                 (state (add_expense 50 "Food" "2024-01-10" "Lunch" new_store)))
        = Return l'
      ∧ l' ≡ₚ Record_ i 50 "Food" "2024-01-10" "Lunch" :: l
      ∧ (i ∉ r_id <$> l)
      ∧ Sorted date_desc l'.
Proof.
  split; [vm_compute; reflexivity|].
  apply (add_expense_adds_one_record new_store 50 "Food" "2024-01-10" "Lunch").
  vm_compute; reflexivity.
Defined.

(** C3 as stated fails: asked for the category with the empty name,
    [get_expenses] returns the two expenses of category Food. *)
Lemma get_expenses_empty_category_name :
  ¬ returns_literally_filtered seeded two_expenses [] None None (Some "").
Proof.
  intros (l & Hl & Hiff).
  assert (l = [Record_ 2 20 "Food" "2024-01-12" "";
               Record_ 1 50 "Food" "2024-01-10" "Lunch"]) as ->.
  { vm_compute in Hl. by injection Hl as <-. }
  destruct (Hiff (Record_ 2 20 "Food" "2024-01-12" "")) as [Hpass _].
  destruct Hpass as (_ & _ & _ & Hname); [left|].
  specialize (Hname "" eq_refl). discriminate Hname.
Qed.

(** C4 as stated fails: no expense has id 7, and updating it returns
    [True]. *)
Lemma update_expense_missing_id :
  ¬ (value (get_expense_by_id 7 lunch_store) = Return None →
     value (update_expense 7 5 "Food" "2024-02-01" "" lunch_store) = Return false).
Proof.
  intros Hclaim.
  assert (value (update_expense 7 5 "Food" "2024-02-01" "" lunch_store)
          = Return true) as Htrue by (vm_compute; reflexivity).
  rewrite Hclaim in Htrue; [discriminate Htrue|].
  vm_compute. reflexivity.
Qed.

(** C4 as the code has it: an unknown category, with no connection and on
    the scenario, and the id 7 that no expense has. *)
Lemma update_expense_outcomes_witness :
  update_expense 1 5 "Travel" "2024-02-01" "" offline_store
  = (Return false, offline_store)
  ∧ update_expense 1 5 "Travel" "2024-02-01" "" (connected seeded two_expenses [])
    = (Return false,
       connected seeded two_expenses [category_not_found "Travel"])
  ∧ update_expense 7 5 "Food" "2024-02-01" "" (connected seeded two_expenses [])
    = (Return true, connected seeded two_expenses []).
Proof.
  destruct (update_expense_outcomes 7 5 "Food" "2024-02-01" "")
    as (_ & _ & Hmissing).
  destruct (update_expense_outcomes 1 5 "Travel" "2024-02-01" "")
    as (Hany & Hunknown & _).
  split; [|split].
  - destruct (Hany offline_store []) as (Hvalue & _ & Hstate & _);
      [reflexivity|apply not_elem_of_nil|].
    rewrite (surjective_pairing
               (update_expense 1 5 "Travel" "2024-02-01" "" offline_store)).
    apply pair_equal_spec. split; [exact Hvalue|exact (Hstate eq_refl)].
  - apply Hunknown. exact Travel_not_in_seeded.
  - apply Hmissing.
    + exact Food_in_seeded.
    + unfold int64. lia.
    + exact no_expense_7.
Defined.

(** C6 on the scenario. *)
Lemma add_expense_unknown_category_witness :
  value (add_expense 5 "Travel" "2024-02-01" "" lunch_store) = Return false
  ∧ conn (state (add_expense 5 "Travel" "2024-02-01" "" lunch_store))
    = conn lunch_store
  ∧ value (get_expenses None None None
             (state (add_expense 5 "Travel" "2024-02-01" "" lunch_store)))
    = value (get_expenses None None None lunch_store).
Proof.
  destruct (add_expense_unknown_category lunch_store 5 "Travel" "2024-02-01" ""
              ["Entertainment"; "Food"; "Other"; "Rent"; "Salary"; "Shopping";
               "Transport"; "Utilities"]) as (H1 & H2 & H3 & _).
  - vm_compute. reflexivity.
  - apply (bool_decide_unpack _). vm_compute. exact I.
  - repeat split; assumption.
Defined.

(** C7 on the scenario. *)
Lemma delete_expense_idempotent_witness :
  value (delete_expense 1 lunch_store) = Return (Bool true)
  ∧ value (get_expense_by_id 1 (state (delete_expense 1 lunch_store)))
    = Return None
  ∧ value (delete_expense 1 (state (delete_expense 1 lunch_store)))
    = Return (Bool true).
Proof.
  split; [vm_compute; reflexivity|].
  apply (delete_expense_idempotent lunch_store 1).
  vm_compute; reflexivity.
Defined.

(** C8 on the sample: the store on a file that is not a database. *)
Example delete_expense_on_broken_store :
  delete_expense 1 broken_store
  = (Return EmptyList,
     Self (Some NotADatabase)
       [showerror "Database Error"
          "Failed to create tables: file is not a database";
        showerror "Database Error"
          "Failed to delete expense: file is not a database"]).
Proof. vm_compute. reflexivity. Qed.

(** C10 on the scenario: the store takes the amount -5 for Food, and the
    form refuses it. *)
Lemma store_accepts_any_amount_witness :
  "Food" ∈ names seeded
  ∧ value (add_expense (-5) "Food" "2024-03-01" "" (connected seeded two_expenses []))
    = Return true
  ∧ value (update_expense 1 (-5) "Food" "2024-03-01" ""
             (connected seeded two_expenses []))
    = Return true
  ∧ ∃ message,
      add_expense_gui minus_five_strip minus_five_float (λ a, a <=? 0)
        minus_five_strptime "-5" "Food" "2024-03-01" ""
        (connected seeded two_expenses [])
      = (Return (),
         connected seeded two_expenses [showerror "Input Error" message]).
Proof.
  split; [exact Food_in_seeded|].
  assert (int64 (next_rowid two_expenses)) as Hnext
    by (vm_compute; split; [discriminate|reflexivity]).
  destruct (store_accepts_any_amount minus_five_strip minus_five_float
              (λ a, a <=? 0) minus_five_strptime seeded two_expenses [] (-5)
              "Food" "2024-03-01" "" Food_in_seeded eq_refl Hnext)
    as [(k & Hk & Hadd & _ & Hupdate) Hgui].
  split; [by rewrite Hadd|]. split.
  - destruct (Hupdate 1) as [Hup _]; [unfold int64; lia| |by rewrite Hup].
    vm_compute. eexists. reflexivity.
  - destruct (Hgui (connected seeded two_expenses []) "-5" (-5) "Food"
                "2024-03-01" "" 1 true) as (message & Hmsg & _);
      [reflexivity..|].
    exists message. exact Hmsg.
Defined.

(** A name that is there takes no row but draws a rowid: started on a file
    that holds Food only, the store gives Transport the id 3; and a second
    start of the scenario's store moves the counter from 8 to 16. *)
Example seeding_beside_Food :
  scan (seed (insert_row "Food" empty_table) default_categories)
  = [(1, "Food"); (3, "Transport"); (4, "Utilities"); (5, "Rent");
     (6, "Shopping"); (7, "Entertainment"); (8, "Salary"); (9, "Other")].
Proof. vm_compute. reflexivity. Qed.

Example second_start_counter :
  scan (seed seeded default_categories) = scan seeded
  ∧ seq seeded = 8
  ∧ seq (seed seeded default_categories) = 16.
Proof. vm_compute. repeat split; reflexivity. Qed.

(** Expenses of one date are listed in the order of their ids. *)
Example same_date_in_id_order :
  value (get_expenses None None None
           (state (add_expense 5 "Food" "2024-01-10" "c"
                     (state (add_expense 20 "Transport" "2024-01-10" "b"
                               (state (add_expense 50 "Food" "2024-01-10" "a"
                                         new_store)))))))
  = Return [Record_ 1 50 "Food" "2024-01-10" "a";
            Record_ 2 20 "Transport" "2024-01-10" "b";
            Record_ 3 5 "Food" "2024-01-10" "c"].
Proof. vm_compute. reflexivity. Qed.

(** The value that is not a number is refused by the column. *)
Example store_refuses_nan :
  add_expense (None : option Z) "Food" "2024-03-01" "" (connected seeded empty_table [])
  = (Return false,
     connected seeded empty_table
       [showerror "Database Error"
          "Failed to add expense: NOT NULL constraint failed: expenses.amount"]).
Proof. vm_compute. reflexivity. Qed.

Example store_keeps_negative_amount :
  value (get_expense_by_id 3
           (state (add_expense (-5) "Food" "2024-03-01" "" lunch_store)))
  = Return (Some (Record_ 3 (-5) "Food" "2024-03-01" "")).
Proof. vm_compute. reflexivity. Qed.

(** * Further properties of the store and of its callers *)

Section Coverage.
Context {real : Type} `{!NaN real} (add : real → real → real) (zero : real).

Implicit Types (self : ExpenseTrackerDB real) (c : table string)
  (e : table (expense real)) (log : list event) (r : record real).

(** ** Lookup by id *)

Lemma lookup_record_is_expense c e i r :
  lookup_record c e i = Some r ↔ is_expense c e r ∧ r_id r = i.
Proof.
  unfold lookup_record, is_expense. split.
  - destruct (rows e !! i) as [row|] eqn:Hrow; [|done]. simpl.
    destruct (rows c !! e_category_id row) as [n|] eqn:Hn; [|done]. simpl.
    intros [= <-]. simpl. split; [|done]. by exists row.
  - intros [(row & Hrow & Hn & Ha & Hd & Hs) <-]. rewrite Hrow. simpl.
    rewrite Hn. simpl. destruct r; simpl in *. by subst.
Qed.

Lemma get_expense_by_id_lookup c e log i :
  get_expense_by_id i (connected c e log)
  = (Return (lookup_record c e i), connected c e log).
Proof.
  destruct (lookup_record c e i) as [r|] eqn:Hr.
  - apply lookup_record_is_expense in Hr as [Hr <-].
    by apply get_expense_by_id_found.
  - rewrite get_expense_by_id_connected, where_nil.
    rewrite filter_id_nil; [done|]. intros Hin.
    apply list_elem_of_fmap in Hin as (r & -> & Hin).
    apply elem_of_join in Hin.
    assert (lookup_record c e (r_id r) = Some r) as Hsome
      by (by apply lookup_record_is_expense).
    congruence.
Qed.

Lemma get_expenses_all_connected c e log :
  get_expenses None None None (connected c e log)
  = (Return (order_by_date_desc (join e c)), connected c e log).
Proof.
  rewrite get_expenses_connected.
  change (expenses_conditions None None None) with (@nil (@condition)).
  by rewrite where_nil.
Qed.

Lemma elem_of_get_expenses_all c e r :
  r ∈ order_by_date_desc (join e c) ↔ is_expense c e r.
Proof. by rewrite order_by_date_desc_perm, elem_of_join. Qed.

(** ** Categories *)

(** X1. On a store in working order [get_categories] returns the names of
    the categories table, every row once, in ascending order, and changes
    nothing; a name is in the list exactly when [_get_category_id] finds an
    id for it. *)
Theorem get_categories_lists_what_resolves c e log :
  ∃ l,
    get_categories (connected c e log) = (Return l, connected c e log)
    ∧ Sorted String.le l
    ∧ l ≡ₚ names c
    ∧ ∀ n, n ∈ l
           ↔ ∃ i, value (_get_category_id n (connected c e log)) = Return (Some i).
Proof.
  exists (order_by String.le (names c)).
  split; [apply get_categories_connected|].
  split; [apply (Sorted_order_by _)|].
  split; [apply order_by_Permutation|].
  intros n. rewrite order_by_Permutation.
  change (value (_get_category_id n (connected c e log)))
    with (Return (A := option Z)
            (fst <$> head (filter (λ row, row.2 = n) (scan c)))).
  split.
  - intros Hn. apply category_id_is_Some in Hn as [i Hi]. exists i. by rewrite Hi.
  - intros [i [= Hi]]. apply category_id_Some in Hi. apply elem_of_names. by exists i.
Qed.

(** X2. [_get_category_id] changes nothing and returns an id whose row in
    the categories table has the requested name, or [None] exactly when no
    row has that name. *)
Theorem get_category_id_resolves c e log n :
  ∃ o,
    _get_category_id n (connected c e log) = (Return o, connected c e log)
    ∧ match o with
      | Some i => rows c !! i = Some n
      | None => ∀ i, rows c !! i ≠ Some n
      end.
Proof.
  exists (fst <$> head (filter (λ row, row.2 = n) (scan c))).
  split; [reflexivity|].
  destruct (fst <$> head _) as [i|] eqn:Hi.
  - by apply category_id_Some in Hi.
  - apply category_id_None in Hi. intros i Hn. apply Hi, elem_of_names. by exists i.
Qed.

(** ** What the methods leave alone *)

Lemma get_expenses_conn self a b n : conn (state (get_expenses a b n self)) = conn self.
Proof. by destruct self as [[[|[[c|] [e|]]]|] log]. Qed.

Lemma get_categories_conn self : conn (state (get_categories self)) = conn self.
Proof. by destruct self as [[[|[[c|] [e|]]]|] log]. Qed.

Lemma get_expenses_Return self a b n : ∃ l, value (get_expenses a b n self) = Return l.
Proof. destruct self as [[[|[[c|] [e|]]]|] log]; by eexists. Qed.

Lemma get_categories_Return self : ∃ l, value (get_categories self) = Return l.
Proof. destruct self as [[[|[[c|] [e|]]]|] log]; by eexists. Qed.

(** X3. The four queries never write: in every state of the store,
    whether they succeed or fail, the connection and the database behind it
    are afterwards what they were. *)
Theorem queries_never_write self :
  (∀ a b n, conn (state (get_expenses a b n self)) = conn self)
  ∧ (∀ i, conn (state (get_expense_by_id i self)) = conn self)
  ∧ conn (state (get_categories self)) = conn self
  ∧ (∀ a b, conn (state (get_spending_by_category add zero a b self)) = conn self).
Proof.
  split; [intros; apply get_expenses_conn|].
  split; [|split; [apply get_categories_conn|]].
  - intros i. by destruct self as [[[|[[c|] [e|]]]|] log].
  - intros a b. by destruct self as [[[|[[c|] [e|]]]|] log].
Qed.

Lemma add_expense_categories self amount n d s :
  value (get_categories (state (add_expense amount n d s self)))
  = value (get_categories self).
Proof.
  destruct self as [[[|[[c|] [e|]]]|] log]; try reflexivity.
  - fold (connected c e log). rewrite add_expense_connected.
    destruct (fst <$> head _); [by destruct (is_nan amount)|done].
  - unfold add_expense, guard_conn, try_except, bind, _get_category_id,
      execute, select_category_id. simpl.
    by destruct (fst <$> head _).
Qed.

Lemma update_expense_categories self i amount n d s :
  value (get_categories (state (update_expense i amount n d s self)))
  = value (get_categories self).
Proof.
  destruct self as [[[|[[c|] [e|]]]|] log]; try reflexivity.
  - fold (connected c e log). rewrite update_expense_connected.
    destruct (fst <$> head _); [|done].
    by destruct (is_nan amount && bool_decide (is_Some (rows e !! i))).
  - unfold update_expense, guard_conn, try_except, bind, _get_category_id,
      execute, select_category_id. simpl.
    by destruct (fst <$> head _).
Qed.

(** X4. The writes on expenses never touch the categories: in every state
    of the store, after [add_expense], [update_expense] or [delete_expense],
    whatever they return, [get_categories] returns what it returned
    before. *)
Theorem expense_writes_keep_categories self :
  (∀ amount n d s,
     value (get_categories (state (add_expense amount n d s self)))
     = value (get_categories self))
  ∧ (∀ i amount n d s,
       value (get_categories (state (update_expense i amount n d s self)))
       = value (get_categories self))
  ∧ (∀ i, value (get_categories (state (delete_expense i self)))
          = value (get_categories self)).
Proof.
  split; [intros; apply add_expense_categories|].
  split; [intros; apply update_expense_categories|].
  intros i. by destruct self as [[[|[[c|] [e|]]]|] log].
Qed.

(** ** Deleting and updating one expense *)

Lemma is_expense_delete c e i r :
  is_expense c (Table (delete i (rows e)) (seq e)) r
  ↔ is_expense c e r ∧ r_id r ≠ i.
Proof.
  unfold is_expense. simpl. split.
  - intros (row & Hrow & Hrest). apply lookup_delete_Some in Hrow as [Hne Hrow].
    split; [by exists row|done].
  - intros [(row & Hrow & Hrest) Hne]. exists row. split; [|done].
    by apply lookup_delete_Some.
Qed.

(** X5. [delete_expense] removes the expense with the given id and no
    other: on a store in working order and for an id that is a signed
    64-bit integer it returns [True], and [get_expenses()] afterwards
    returns the records it returned before except the one with that id. *)
Theorem delete_expense_removes_one c e log i :
  int64 i →
  ∃ l l',
    value (get_expenses None None None (connected c e log)) = Return l
    ∧ value (delete_expense i (connected c e log)) = Return (Bool true)
    ∧ value (get_expenses None None None
               (state (delete_expense i (connected c e log)))) = Return l'
    ∧ l' ≡ₚ filter (λ r, r_id r ≠ i) l.
Proof.
  intros _.
  rewrite delete_expense_connected. unfold state, value. cbn [fst snd].
  rewrite !get_expenses_all_connected. cbn [fst].
  eexists _, _. split; [done|]. split; [done|]. split; [done|].
  apply NoDup_Permutation.
  - rewrite order_by_date_desc_perm. apply NoDup_join.
  - apply NoDup_filter. rewrite order_by_date_desc_perm. apply NoDup_join.
  - intros r. rewrite list_elem_of_filter, !elem_of_get_expenses_all.
    rewrite is_expense_delete. split; intros [? ?]; by split.
Qed.

(** X6. Deleting an id (a signed 64-bit integer) that no expense has
    changes nothing at all: the store afterwards is the store before, and
    the result is [True]. *)
Theorem delete_expense_missing_id c e log i :
  int64 i →
  rows e !! i = None →
  delete_expense i (connected c e log) = (Return (Bool true), connected c e log).
Proof.
  intros _ Hi. rewrite delete_expense_connected, delete_id by done.
  by destruct e.
Qed.

(** X7. [update_expense] with a category name that resolves and an amount
    that is a number rewrites the expense with the given id and no other
    (the ids being signed 64-bit integers): it returns [True], every other
    id is looked up afterwards as before, and the given id, when an expense
    has it, is looked up with the new amount, category name, date and
    description. *)
Theorem update_expense_rewrites_one c e log i amount n d s :
  n ∈ names c → int64 i → is_nan amount = false →
  let after := update_expense i amount n d s (connected c e log) in
  value after = Return true
  ∧ (∀ j, int64 j → j ≠ i →
          value (get_expense_by_id j (state after))
          = value (get_expense_by_id j (connected c e log)))
  ∧ value (get_expense_by_id i (state after))
    = Return (match rows e !! i with
              | Some _ => Some (Record_ i amount n d s)
              | None => None
              end).
Proof.
  intros Hn _ Hnan after. subst after.
  apply category_id_is_Some in Hn as [k Hk].
  rewrite update_expense_connected, Hk, Hnan. apply category_id_Some in Hk.
  unfold state, value. cbn [fst snd andb]. split; [done|]. split.
  - intros j _ Hj. rewrite !get_expense_by_id_lookup. cbn [fst].
    unfold lookup_record. simpl. by rewrite lookup_alter_ne.
  - rewrite get_expense_by_id_lookup. cbn [fst].
    unfold lookup_record. simpl. rewrite lookup_alter_eq.
    destruct (rows e !! i); simpl; [|done]. by rewrite Hk.
Qed.

(** X8. The list and the lookup agree: a record is in what
    [get_expenses()] returns exactly when [get_expense_by_id] returns it for
    its id. *)
Theorem get_expenses_agrees_with_lookup c e log r :
  (∃ l, value (get_expenses None None None (connected c e log)) = Return l ∧ r ∈ l)
  ↔ value (get_expense_by_id (r_id r) (connected c e log)) = Return (Some r).
Proof.
  rewrite get_expenses_all_connected, get_expense_by_id_lookup.
  unfold value. cbn [fst]. split.
  - intros (l & [= <-] & Hr). apply elem_of_get_expenses_all in Hr.
    f_equal. by apply lookup_record_is_expense.
  - intros [= Hr]. apply lookup_record_is_expense in Hr as [Hr _].
    eexists. split; [done|]. by apply elem_of_get_expenses_all.
Qed.

(** ** An empty date range *)

Lemma filter_none {A : Type} (P : A → Prop) `{!∀ x, Decision (P x)} (l : list A) :
  (∀ x, x ∈ l → ¬ P x) → filter P l = [].
Proof.
  induction l as [|x l IH]; intros Hall; [done|].
  rewrite filter_cons_False by (apply Hall; left).
  apply IH. intros y Hy. apply Hall. by right.
Qed.

(** X9. A date range that ends before it starts selects nothing: with a
    start date and an earlier end date, both non-empty, [get_expenses]
    returns the empty list, whatever the category filter, and
    [get_spending_by_category] returns the empty dictionary. *)
Theorem reversed_date_range_is_empty c e log (start_date end_date : string)
    (category_name : option string) :
  start_date ≠ "" → end_date ≠ "" →
  String.le end_date start_date → end_date ≠ start_date →
  get_expenses (Some start_date) (Some end_date) category_name (connected c e log)
  = (Return [], connected c e log)
  ∧ get_spending_by_category add zero (Some start_date) (Some end_date)
      (connected c e log)
    = (Return [], connected c e log).
Proof.
  intros Hs Ht Hle Hne.
  assert (∀ r, ¬ (String.le start_date (r_date r)
                  ∧ String.le (r_date r) end_date)) as Hnone.
  { intros r [H1 H2]. apply Hne. apply (anti_symm String.le); [done|].
    by etrans. }
  split.
  - rewrite get_expenses_connected. unfold where_. rewrite filter_none; [done|].
    intros r _ Hr. apply expenses_conditions_passes in Hr as (H1 & H2 & _).
    apply (Hnone r). split; [by apply H1|by apply H2].
  - rewrite (get_spending_by_category_connected add zero). unfold where_.
    rewrite filter_none; [done|].
    intros r _ Hr. rewrite spending_conditions_app, Forall_app in Hr.
    rewrite !holds_if_truthy in Hr. destruct Hr as [H1 H2].
    apply (Hnone r). split; [by apply (H1 start_date)|by apply (H2 end_date)].
Qed.

(** ** Row ids *)

Lemma foldr_max_le (l : list Z) (b : Z) :
  0 ≤ b → (∀ j, j ∈ l → j ≤ b) → foldr Z.max 0 l ≤ b.
Proof.
  intros Hb. induction l as [|j l IH]; intros Hall; simpl; [done|].
  assert (j ≤ b) by (apply Hall; left).
  assert (foldr Z.max 0 l ≤ b) by (apply IH; intros k Hk; apply Hall; by right).
  lia.
Qed.

Lemma max_rowid_nonneg {R : Type} (t : table R) : 0 ≤ max_rowid t.
Proof.
  unfold max_rowid. induction (scan t).*1 as [|j l IH]; simpl; lia.
Qed.

Lemma next_rowid_after_insert_delete {R : Type} (x : R) (t : table R) :
  let i := next_rowid t in
  Table (delete i (rows (insert_row x t))) (seq (insert_row x t)) = Table (rows t) i
  ∧ next_rowid (Table (rows t) i) = i + 1.
Proof.
  intros i. split.
  - unfold insert_row. simpl. fold i.
    by rewrite delete_insert_eq, delete_id by apply next_rowid_fresh.
  - unfold next_rowid at 1. simpl.
    change (max_rowid (Table (rows t) i)) with (max_rowid t).
    subst i. unfold next_rowid. pose proof (max_rowid_nonneg t). lia.
Qed.

Lemma value_pair {A : Type} (a : result A) self : value (a, self) = a.
Proof. reflexivity. Qed.

Lemma state_pair {A : Type} (a : result A) self : state (a, self) = self.
Proof. reflexivity. Qed.

Lemma add_expense_True c e log amount n d s :
  value (add_expense amount n d s (connected c e log)) = Return true →
  ∃ k, fst <$> head (filter (λ row, row.2 = n) (scan c)) = Some k
       ∧ is_nan amount = false
       ∧ state (add_expense amount n d s (connected c e log))
         = connected c (insert_row (Expense amount k d s) e) log.
Proof.
  rewrite add_expense_connected.
  destruct (fst <$> head _) as [k|]; [|discriminate].
  destruct (is_nan amount); [discriminate|].
  intros _. by exists k.
Qed.

(** X10. An id is not handed out twice.  When an expense is added, then
    deleted, and another expense is added, both additions returning [True]
    and the two ids being signed 64-bit integers, the second expense gets
    the next id, not the id of the deleted one: the deleted id stays
    absent.  (The tables are declared AUTOINCREMENT.) *)
Theorem deleted_id_is_not_reused c e log amount1 n1 d1 s1 amount2 n2 d2 s2 :
  let i := next_rowid e in
  let added := add_expense amount1 n1 d1 s1 (connected c e log) in
  let deleted := delete_expense i (state added) in
  let again := add_expense amount2 n2 d2 s2 (state deleted) in
  int64 (i + 1) →
  value added = Return true →
  value again = Return true →
  value deleted = Return (Bool true)
  ∧ value (get_expense_by_id i (state added))
    = Return (Some (Record_ i amount1 n1 d1 s1))
  ∧ value (get_expense_by_id i (state again)) = Return None
  ∧ value (get_expense_by_id (i + 1) (state again))
    = Return (Some (Record_ (i + 1) amount2 n2 d2 s2)).
Proof.
  intros i added deleted again. subst added deleted again.
  intros _ Hadd1.
  apply add_expense_True in Hadd1 as (k1 & Hk1 & _ & Hadded).
  rewrite Hadded, delete_expense_connected.
  rewrite !state_pair, value_pair.
  destruct (next_rowid_after_insert_delete (Expense amount1 k1 d1 s1) e)
    as [Hdel Hnext]. fold i in Hdel, Hnext. rewrite Hdel.
  intros Hadd2.
  apply add_expense_True in Hadd2 as (k2 & Hk2 & _ & Hagain).
  rewrite Hagain. split; [done|].
  apply category_id_Some in Hk1, Hk2.
  rewrite !get_expense_by_id_lookup.
  unfold value, lookup_record, insert_row. cbn [fst rows]. rewrite Hnext.
  fold i. split; [|split].
  - rewrite lookup_insert_eq. simpl. by rewrite Hk1.
  - rewrite lookup_insert_ne by lia. subst i. by rewrite next_rowid_fresh.
  - rewrite lookup_insert_eq. simpl. by rewrite Hk2.
Qed.

(** ** Construction *)





(** ** The form *)

Section Forms.
Context (strip : string → string) (float : string → option real)
        (le_zero : real → bool) (strptime : string → bool).

(** X12. [_validate_input] accepts exactly the forms in which the amount
    is not blank and converts to a number that is not [<= 0], the category
    is not blank, and the date is not blank and parses as YYYY-MM-DD; it
    returns the empty message when it accepts and a non-empty one when it
    refuses. *)
Theorem validate_input_accepts amount_str category_name date_str :
  let answer :=
    _validate_input strip float le_zero strptime amount_str category_name date_str in
  (answer.1 = true
   ↔ strip amount_str ≠ ""
     ∧ (∃ amount, float amount_str = Some amount ∧ le_zero amount = false)
     ∧ strip category_name ≠ ""
     ∧ strip date_str ≠ ""
     ∧ strptime date_str = true)
  ∧ (answer.1 = true ↔ answer.2 = "").
Proof.
  intros answer. subst answer. unfold _validate_input.
  destruct (String.eqb_spec (strip amount_str) "") as [E1|E1];
    [split; split; [done|by intros (? & _)|done..]|].
  destruct (float amount_str) as [amount|];
    [|split; split; [done|by intros (_ & (a & Ha & _) & _)|done..]].
  destruct (le_zero amount) eqn:Hle;
    [split; split; [done| |done..];
     intros (_ & (a & [= <-] & Ha) & _); congruence|].
  destruct (String.eqb_spec (strip category_name) "") as [E2|E2];
    [split; split; [done|by intros (_ & _ & ? & _)|done..]|].
  destruct (String.eqb_spec (strip date_str) "") as [E3|E3];
    [split; split; [done|by intros (_ & _ & _ & ? & _)|done..]|].
  destruct (strptime date_str) eqn:Hdate;
    [|split; split; [done|by intros (_ & _ & _ & _ & ?)|done..]].
  split; split; try done. intros _. repeat split; try done. by exists amount.
Qed.

Lemma validate_input_float amount_str category_name date_str message :
  _validate_input strip float le_zero strptime amount_str category_name date_str
  = (true, message) →
  ∃ amount, float amount_str = Some amount.
Proof.
  intros Hvalid.
  destruct (validate_input_accepts amount_str category_name date_str) as [Hacc _].
  rewrite Hvalid in Hacc. destruct Hacc as [Hacc _].
  destruct (Hacc eq_refl) as (_ & (amount & Hfloat & _) & _). by exists amount.
Qed.

Lemma refresh_runs self :
  ∃ self', (update_expense_list;; clear_entries) self = (Return (), self')
           ∧ conn self' = conn self.
Proof. destruct self as [[[|[[c|] [e|]]]|] log]; by eexists. Qed.

Lemma add_expense_Return self amount n d s :
  ∃ b self', add_expense amount n d s self = (Return b, self').
Proof.
  destruct self as [[[|[[c|] [e|]]]|] log]; try (by eexists _, _).
  - fold (connected c e log). rewrite add_expense_connected.
    destruct (fst <$> head _); [destruct (is_nan amount)|]; by eexists _, _.
  - unfold add_expense, guard_conn, try_except, bind, _get_category_id,
      execute, select_category_id. simpl.
    destruct (fst <$> head _); by eexists _, _.
Qed.

Lemma update_expense_Return self i amount n d s :
  ∃ b self', update_expense i amount n d s self = (Return b, self').
Proof.
  destruct self as [[[|[[c|] [e|]]]|] log]; try (by eexists _, _).
  - fold (connected c e log). rewrite update_expense_connected.
    destruct (fst <$> head _);
      [destruct (is_nan amount && bool_decide (is_Some (rows e !! i)))|];
      by eexists _, _.
  - unfold update_expense, guard_conn, try_except, bind, _get_category_id,
      execute, select_category_id. simpl.
    destruct (fst <$> head _); by eexists _, _.
Qed.

Lemma delete_expense_Return self i :
  ∃ v self', delete_expense i self = (Return v, self').
Proof.
  destruct self as [[[|[[c|] [e|]]]|] log]; by eexists _, _.
Qed.

Lemma add_expense_gui_accepted self amount_entry category_var date_entry
    description_entry message amount b self' :
  _validate_input strip float le_zero strptime (strip amount_entry)
    (strip category_var) (strip date_entry) = (true, message) →
  float (strip amount_entry) = Some amount →
  add_expense amount (strip category_var) (strip date_entry)
    (strip description_entry) self = (Return b, self') →
  add_expense_gui strip float le_zero strptime amount_entry category_var
    date_entry description_entry self
  = if b then (update_expense_list;; clear_entries) self' else (Return (), self').
Proof.
  intros Hvalid Hfloat Hadd. unfold add_expense_gui. rewrite Hvalid.
  cbn [negb]. unfold bind at 1, to_float. rewrite Hfloat.
  unfold bind at 1. rewrite Hadd. by destruct b.
Qed.

Lemma update_expense_gui_accepted self expense_id amount_entry category_var
    date_entry description_entry message amount b self' :
  _validate_input strip float le_zero strptime (strip amount_entry)
    (strip category_var) (strip date_entry) = (true, message) →
  float (strip amount_entry) = Some amount →
  update_expense expense_id amount (strip category_var) (strip date_entry)
    (strip description_entry) self = (Return b, self') →
  update_expense_gui strip float le_zero strptime (Some expense_id) true
    amount_entry category_var date_entry description_entry self
  = if b then (update_expense_list;; clear_entries) self' else (Return (), self').
Proof.
  intros Hvalid Hfloat Hupd. unfold update_expense_gui. rewrite Hvalid.
  cbn [negb]. unfold bind at 1, to_float. rewrite Hfloat.
  unfold bind at 1. rewrite Hupd. by destruct b.
Qed.

Lemma update_expense_gui_unconfirmed self expense_id amount_entry category_var
    date_entry description_entry :
  conn (state (update_expense_gui strip float le_zero strptime (Some expense_id)
                 false amount_entry category_var date_entry description_entry
                 self))
  = conn self.
Proof.
  unfold update_expense_gui.
  destruct (_validate_input _ _ _ _ _ _ _) as [[|] message] eqn:Hvalid; [|done].
  destruct (validate_input_float _ _ _ _ Hvalid) as [amount Hfloat].
  cbn [negb]. unfold bind at 1, to_float. by rewrite Hfloat.
Qed.

(** X13. [add_expense_gui] reaches the store only with a form that
    [_validate_input] accepts.  With a refused form it shows the message of
    the validation and leaves the store as it is.  With an accepted form it
    calls [add_expense] with the converted amount and the stripped fields,
    and the database is afterwards what that call made of it.  This holds
    in every state of the store. *)
Theorem add_expense_gui_outcomes self amount_entry category_var date_entry
    description_entry :
  let run :=
    add_expense_gui strip float le_zero strptime amount_entry category_var
      date_entry description_entry self in
  match _validate_input strip float le_zero strptime (strip amount_entry)
          (strip category_var) (strip date_entry) with
  | (false, message) =>
      run = (Return (),
             Self (conn self) (events self ++ [showerror "Input Error" message]))
  | (true, _) =>
      ∃ amount,
        float (strip amount_entry) = Some amount
        ∧ value run = Return ()
        ∧ conn (state run)
          = conn (state (add_expense amount (strip category_var) (strip date_entry)
                           (strip description_entry) self))
  end.
Proof.
  intros run. subst run.
  destruct (_validate_input _ _ _ _ _ _ _) as [[|] message] eqn:Hvalid.
  - destruct (validate_input_float _ _ _ _ Hvalid) as [amount Hfloat].
    exists amount. split; [done|].
    destruct (add_expense_Return self amount (strip category_var)
                (strip date_entry) (strip description_entry))
      as (b & self' & Hadd).
    rewrite (add_expense_gui_accepted _ _ _ _ _ _ _ _ _ Hvalid Hfloat Hadd), Hadd.
    destruct b; [|by split].
    destruct (refresh_runs self') as (self'' & Hrun & Hconn).
    rewrite Hrun. by split.
  - unfold add_expense_gui. by rewrite Hvalid.
Qed.

(** X14. [update_expense_gui] and [delete_expense_gui] reach the store
    only with a selection and the user's confirmation.  Without a selection
    they show a warning, without a confirmation they do nothing, and in both
    cases the connection and the database stay as they are, whatever the
    form holds and in every state of the store. *)
Theorem handlers_need_selection_and_confirmation self amount_entry category_var
    date_entry description_entry (confirm : bool) (expense_id : Z) :
  conn (state (update_expense_gui strip float le_zero strptime None confirm
                 amount_entry category_var date_entry description_entry self))
  = conn self
  ∧ conn (state (update_expense_gui strip float le_zero strptime (Some expense_id)
                   false amount_entry category_var date_entry description_entry
                   self))
    = conn self
  ∧ conn (state (delete_expense_gui None confirm self)) = conn self
  ∧ delete_expense_gui (Some expense_id) false self = (Return (), self).
Proof.
  split; [done|]. split; [|done]. apply update_expense_gui_unconfirmed.
Qed.

(** X15. The three button handlers never let an exception escape: in
    every state of the store and for every content of the form they return
    normally.  In particular the conversion [float(amount_str)] cannot fail
    after the validation. *)
Theorem handlers_never_raise self amount_entry category_var date_entry
    description_entry (selected : option Z) (confirm : bool) :
  value (add_expense_gui strip float le_zero strptime amount_entry category_var
           date_entry description_entry self) = Return ()
  ∧ value (update_expense_gui strip float le_zero strptime selected confirm
             amount_entry category_var date_entry description_entry self)
    = Return ()
  ∧ value (delete_expense_gui selected confirm self) = Return ().
Proof.
  split; [|split].
  - destruct (_validate_input strip float le_zero strptime (strip amount_entry)
                (strip category_var) (strip date_entry))
      as [[|] message] eqn:Hvalid.
    + destruct (validate_input_float _ _ _ _ Hvalid) as [amount Hfloat].
      destruct (add_expense_Return self amount (strip category_var)
                  (strip date_entry) (strip description_entry))
        as (b & self' & Hadd).
      rewrite (add_expense_gui_accepted _ _ _ _ _ _ _ _ _ Hvalid Hfloat Hadd).
      destruct b; [|done].
      destruct (refresh_runs self') as (self'' & Hrun & _). by rewrite Hrun.
    + unfold add_expense_gui. by rewrite Hvalid.
  - destruct selected as [expense_id|]; [|done].
    destruct (_validate_input strip float le_zero strptime (strip amount_entry)
                (strip category_var) (strip date_entry))
      as [[|] message] eqn:Hvalid.
    + destruct (validate_input_float _ _ _ _ Hvalid) as [amount Hfloat].
      destruct confirm.
      * destruct (update_expense_Return self expense_id amount
                    (strip category_var) (strip date_entry)
                    (strip description_entry)) as (b & self' & Hupd).
        rewrite (update_expense_gui_accepted _ _ _ _ _ _ _ _ _ _ Hvalid Hfloat
                   Hupd).
        destruct b; [|done].
        destruct (refresh_runs self') as (self'' & Hrun & _). by rewrite Hrun.
      * unfold update_expense_gui. rewrite Hvalid. cbn [negb].
        unfold bind at 1, to_float. by rewrite Hfloat.
    + unfold update_expense_gui. by rewrite Hvalid.
  - unfold delete_expense_gui. destruct selected as [expense_id|]; [|done].
    destruct confirm; [|done].
    destruct (delete_expense_Return self expense_id) as (v & self' & Hdel).
    unfold bind at 1. rewrite Hdel. destruct (flag_truthy v); [|done].
    destruct (refresh_runs self') as (self'' & Hrun & _). by rewrite Hrun.
Qed.
End Forms.

(** ** The report *)

Lemma elem_of_dict_keys_cons {V : Type} k (v : V) d n :
  n ∈ dict_keys ((k, v) :: d) ↔ n = k ∨ n ∈ dict_keys d.
Proof. unfold dict_keys. rewrite fmap_cons. apply elem_of_cons. Qed.

Lemma dict_get_is_Some {V : Type} (d : list (string * V)) n :
  is_Some (dict_get d n) ↔ n ∈ dict_keys d.
Proof.
  induction d as [|[k v] d IH].
  - split; [by intros [x Hx]|intros Hn; by apply elem_of_nil in Hn].
  - rewrite dict_get_cons, elem_of_dict_keys_cons.
    destruct (decide (n = k)) as [->|Hne]; [split; eauto|].
    rewrite IH. split; [by right|by intros [?|?]].
Qed.

Lemma group_by_name_keys (l : list (record real)) n :
  n ∈ dict_keys (group_by_name add zero l) ↔ ∃ r, r ∈ l ∧ r_name r = n.
Proof.
  rewrite <- dict_get_is_Some.
  destruct (group_by_name_spec add zero l) as [Hget _]. rewrite Hget.
  destruct (filter _ (order_by name_asc l)) as [|r g] eqn:Hg.
  - split; [by intros [x Hx]|]. intros (r & Hr & Hn). exfalso.
    assert (r ∈ filter (λ r, r_name r = n) (order_by name_asc l)) as Hin.
    { apply list_elem_of_filter. by rewrite order_by_Permutation. }
    rewrite Hg in Hin. by apply elem_of_nil in Hin.
  - split; [|eauto]. intros _.
    assert (r ∈ filter (λ r, r_name r = n) (order_by name_asc l)) as Hin
      by (rewrite Hg; left).
    apply list_elem_of_filter in Hin as [Hn Hin].
    rewrite order_by_Permutation in Hin. by exists r.
Qed.

Lemma group_by_name_dict (l : list (record real)) :
  dict_of_rows (group_by_name add zero l) = group_by_name add zero l.
Proof.
  apply dict_of_rows_id, name_lt_NoDup.
  by destruct (group_by_name_spec add zero l).
Qed.

Lemma spending_conditions_expenses (a b : option string) :
  spending_conditions a b = expenses_conditions a b None.
Proof.
  unfold spending_conditions, expenses_conditions.
  by destruct (truthy a), (truthy b).
Qed.

(** X16. The report and the list agree on the categories: for the same
    date arguments, the keys of [get_spending_by_category] are exactly the
    category names of the records that [get_expenses] returns. *)
Theorem report_keys_are_the_listed_names c e log (start_date end_date : option string) :
  ∃ d l,
    get_spending_by_category add zero start_date end_date (connected c e log)
    = (Return d, connected c e log)
    ∧ get_expenses start_date end_date None (connected c e log)
      = (Return l, connected c e log)
    ∧ ∀ n, n ∈ dict_keys d ↔ ∃ r, r ∈ l ∧ r_name r = n.
Proof.
  eexists _, _.
  split; [apply (get_spending_by_category_connected add zero)|].
  split; [apply get_expenses_connected|].
  intros n. rewrite group_by_name_dict, group_by_name_keys.
  rewrite spending_conditions_expenses.
  split; intros (r & Hr & Hn); exists r; split; try done.
  - by rewrite order_by_date_desc_perm.
  - by rewrite order_by_date_desc_perm in Hr.
Qed.

Lemma generate_report_gui_connected c e log :
  generate_report_gui add zero (connected c e log)
  = (Return match group_by_name add zero (join e c) with
            | [] => NoData
            | d => Bar (dict_keys d) d.*2
            end,
     connected c e log).
Proof.
  unfold generate_report_gui.
  erewrite bind_Return
    by apply (get_spending_by_category_connected add zero).
  change (spending_conditions None None) with (@nil (@condition)).
  rewrite where_nil, group_by_name_dict.
  by destruct (group_by_name add zero (join e c)).
Qed.

(** X17. [generate_report_gui] shows the "no data" dialog exactly when
    [get_expenses()] returns nothing.  Otherwise it draws one bar per
    category name that occurs in the list, the names in strictly ascending
    order, with as many amounts as names; and it leaves the store as it
    is. *)
Theorem generate_report_gui_outcomes c e log :
  ∃ l shown,
    get_expenses None None None (connected c e log) = (Return l, connected c e log)
    ∧ generate_report_gui add zero (connected c e log)
      = (Return shown, connected c e log)
    ∧ match shown with
      | NoData => l = []
      | Bar categories amounts =>
          l ≠ []
          ∧ length amounts = length categories
          ∧ StronglySorted name_lt categories
          ∧ ∀ n, n ∈ categories ↔ ∃ r, r ∈ l ∧ r_name r = n
      end.
Proof.
  eexists _, _. split; [apply get_expenses_all_connected|].
  split; [apply generate_report_gui_connected|].
  pose proof (group_by_name_keys (join e c)) as Hkeys.
  destruct (group_by_name_spec add zero (join e c)) as [_ Hsorted].
  assert (∀ n, (∃ r, r ∈ join e c ∧ r_name r = n)
               ↔ ∃ r, r ∈ order_by_date_desc (join e c) ∧ r_name r = n) as Hperm.
  { intros n. split; intros (r & Hr & Hn); exists r; split; try done.
    - by rewrite order_by_date_desc_perm.
    - by rewrite order_by_date_desc_perm in Hr. }
  destruct (group_by_name add zero (join e c)) as [|kv d] eqn:Hd.
  - destruct (order_by_date_desc (join e c)) as [|r l] eqn:Hl; [done|].
    exfalso. assert (r_name r ∈ dict_keys (@nil (string * real))) as Hin.
    { apply Hkeys, Hperm. exists r. split; [left|done]. }
    by apply elem_of_nil in Hin.
  - split; [|split; [|split]].
    + intros Hnil. destruct (proj1 (Hkeys kv.1)) as (r & Hr & _).
      { unfold dict_keys. rewrite fmap_cons. left. }
      assert (r ∈ order_by_date_desc (join e c)) as Hin
        by (by rewrite order_by_date_desc_perm).
      rewrite Hnil in Hin. by apply elem_of_nil in Hin.
    + unfold dict_keys. by rewrite !length_fmap.
    + done.
    + intros n. by rewrite Hkeys, Hperm.
Qed.

(** ** Invariants *)




Lemma resolves_insert c e row :
  resolves c e → is_Some (rows c !! e_category_id row) →
  resolves c (insert_row row e).
Proof.
  intros Hres Hrow i row' Hi. unfold insert_row in Hi. simpl in Hi.
  apply lookup_insert_Some in Hi as [[_ <-]|[_ Hi]]; [done|by apply (Hres i)].
Qed.

(** X19. The writes keep every expense attached to a category.  On a
    store in working order in which every expense refers to a category that
    is there, this is still so after [add_expense], [update_expense] and
    [delete_expense], with any arguments and whatever they return, and the
    categories are the same. *)
Theorem writes_keep_references c e log :
  resolves c e →
  (∀ amount n d s,
     ∃ e' log', state (add_expense amount n d s (connected c e log))
                = connected c e' log' ∧ resolves c e')
  ∧ (∀ i amount n d s,
       ∃ e' log', state (update_expense i amount n d s (connected c e log))
                  = connected c e' log' ∧ resolves c e')
  ∧ (∀ i, ∃ e' log', state (delete_expense i (connected c e log))
                     = connected c e' log' ∧ resolves c e').
Proof.
  intros Hres. split; [|split].
  - intros amount n d s. rewrite add_expense_connected.
    destruct (fst <$> head _) as [k|] eqn:Hk; [|by eexists _, _].
    destruct (is_nan amount); [by eexists _, _|].
    apply category_id_Some in Hk. eexists _, _. split; [done|].
    apply resolves_insert; [done|]. simpl. by rewrite Hk.
  - intros i amount n d s. rewrite update_expense_connected.
    destruct (fst <$> head _) as [k|] eqn:Hk; [|by eexists _, _].
    destruct (is_nan amount && bool_decide (is_Some (rows e !! i)));
      [by eexists _, _|].
    apply category_id_Some in Hk. eexists _, _. split; [done|].
    intros j row Hj. simpl in Hj.
    apply lookup_alter_Some in Hj as [(_ & old & Hold & ->)|[_ Hj]].
    + simpl. by rewrite Hk.
    + by apply (Hres j).
  - intros i. rewrite delete_expense_connected. eexists _, _. split; [done|].
    intros j row Hj. simpl in Hj. apply lookup_delete_Some in Hj as [_ Hj].
    by apply (Hres j).
Qed.

(** X20. With every expense attached to a category, [get_expenses()]
    returns one record for every row of the expenses table: nothing is
    hidden by the join. *)
Theorem get_expenses_lists_every_row c e log :
  resolves c e →
  ∃ l, get_expenses None None None (connected c e log) = (Return l, connected c e log)
       ∧ length l = size (rows e)
       ∧ ∀ i, is_Some (rows e !! i) ↔ i ∈ r_id <$> l.
Proof.
  intros Hres. eexists. split; [apply get_expenses_all_connected|]. split.
  - rewrite order_by_date_desc_perm. unfold join.
    rewrite <- length_scan.
    assert (∀ row, row ∈ scan e → is_Some (join_row c row)) as Hall.
    { intros [i row] Hin. apply elem_of_scan in Hin.
      destruct (Hres i row Hin) as [n Hn]. unfold join_row. simpl.
      rewrite Hn. by eexists. }
    induction (scan e) as [|row l IH]; [done|].
    assert (length (omap (join_row c) l) = length l) as Hl
      by (apply IH; intros row' Hrow'; apply Hall; by right).
    simpl. destruct (Hall row) as [r Hr]; [left|]. rewrite Hr. simpl.
    f_equal. exact Hl.
  - intros i. rewrite list_elem_of_fmap. split.
    + intros [row Hrow]. destruct (Hres i row Hrow) as [n Hn].
      exists (Record_ i (e_amount row) n (e_date row) (e_description row)).
      split; [done|]. apply elem_of_get_expenses_all. by exists row.
    + intros (r & -> & Hr). apply elem_of_get_expenses_all in Hr.
      destruct Hr as (row & Hrow & _). by exists row.
Qed.


Lemma NoDup_snd_inj {A B : Type} (l : list (A * B)) x1 x2 y :
  NoDup l.*2 → (x1, y) ∈ l → (x2, y) ∈ l → x1 = x2.
Proof.
  induction l as [|[a b] l IH]; intros Hnd H1 H2; [by apply elem_of_nil in H1|].
  rewrite fmap_cons in Hnd. apply NoDup_cons in Hnd as [Hnotin Hnd].
  apply elem_of_cons in H1 as [E1|H1];
    apply elem_of_cons in H2 as [E2|H2]; simplify_eq; try done.
  - exfalso. apply Hnotin. apply list_elem_of_fmap. by exists (x2, b).
  - exfalso. apply Hnotin. apply list_elem_of_fmap. by exists (x1, b).
  - by apply IH.
Qed.


(** X23. With unique category names the name identifies the category:
    [_get_category_id] of the name of the category with id [i] returns
    [i], so that an expense added under that name, with an amount that is
    a number and a rowid left for it, is stored with the category id [i],
    [add_expense] returning [True]. *)
Theorem get_category_id_of_name c e log i n :
  NoDup (names c) → rows c !! i = Some n →
  _get_category_id n (connected c e log) = (Return (Some i), connected c e log)
  ∧ ∀ amount d s,
      is_nan amount = false → int64 (next_rowid e) →
      add_expense amount n d s (connected c e log)
      = (Return true, connected c (insert_row (Expense amount i d s) e) log).
Proof.
  intros Hnd Hi.
  assert (fst <$> head (filter (λ row, row.2 = n) (scan c)) = Some i) as Hhead.
  { destruct (category_id_is_Some c n) as [j Hj];
      [apply elem_of_names; by exists i|].
    rewrite Hj. f_equal. apply category_id_Some in Hj.
    apply (NoDup_snd_inj (scan c) j i n Hnd); by apply elem_of_scan. }
  split.
  - change (_get_category_id n (connected c e log))
      with (Return (fst <$> head (filter (λ row, row.2 = n) (scan c))),
            connected c e log).
    by rewrite Hhead.
  - intros amount d s Hnan _. by rewrite add_expense_connected, Hhead, Hnan.
Qed.

(** ** Without a connection *)

(** X24. When the file could not be opened ([self.conn] is [None]), every
    method of the store returns its failure value at once ([False], the
    empty list, [None], the empty dictionary), shows nothing and changes
    nothing; and the handlers of the form, given a form that the validation
    accepts, call the store, get [False] and leave everything as it is. *)
Theorem offline_store_is_inert self :
  conn self = None →
  (∀ amount n d s, add_expense amount n d s self = (Return false, self))
  ∧ (∀ i amount n d s, update_expense i amount n d s self = (Return false, self))
  ∧ (∀ i, delete_expense i self = (Return (Bool false), self))
  ∧ (∀ a b n, get_expenses a b n self = (Return [], self))
  ∧ (∀ i, get_expense_by_id i self = (Return None, self))
  ∧ get_categories self = (Return [], self)
  ∧ (∀ a b, get_spending_by_category add zero a b self = (Return [], self))
  ∧ generate_report_gui add zero self = (Return NoData, self)
  ∧ (∀ (strip : string → string) (float : string → option real)
       (le_zero : real → bool) (strptime : string → bool)
       amount_entry category_var date_entry description_entry message i,
       _validate_input strip float le_zero strptime (strip amount_entry)
         (strip category_var) (strip date_entry) = (true, message) →
       add_expense_gui strip float le_zero strptime amount_entry category_var
         date_entry description_entry self = (Return (), self)
       ∧ update_expense_gui strip float le_zero strptime (Some i) true
           amount_entry category_var date_entry description_entry self
         = (Return (), self)).
Proof.
  intros Hconn. destruct self as [cn log]. simpl in Hconn. subst cn.
  repeat split;
    destruct (validate_input_float strip float le_zero strptime _ _ _ _ H)
      as [amount Hfloat].
  - by rewrite (add_expense_gui_accepted strip float le_zero strptime
                  (Self None log) amount_entry category_var date_entry
                  description_entry message amount false (Self None log)
                  H Hfloat eq_refl).
  - by rewrite (update_expense_gui_accepted strip float le_zero strptime
                  (Self None log) i amount_entry category_var date_entry
                  description_entry message amount false (Self None log)
                  H Hfloat eq_refl).
Qed.
End Coverage.

(** * The further properties on the sample stores *)

Lemma names_seeded_NoDup : NoDup (names seeded).
Proof. apply (bool_decide_unpack (NoDup (names seeded))). by vm_compute. Qed.

Lemma Food_is_1 : rows seeded !! 1 = Some "Food".
Proof. vm_compute. reflexivity. Qed.

Lemma two_expenses_resolve : resolves seeded two_expenses.
Proof.
  apply (bool_decide_unpack
           (map_Forall (λ _ row, is_Some (rows seeded !! e_category_id row))
              (rows two_expenses))).
  by vm_compute.
Qed.

(** X5 on the scenario: expense 1 is deleted. *)
Lemma delete_expense_removes_one_witness :
  int64 1
  ∧ ∃ l l',
      value (get_expenses None None None (connected seeded two_expenses []))
      = Return l
      ∧ value (delete_expense 1 (connected seeded two_expenses []))
        = Return (Bool true)
      ∧ value (get_expenses None None None
                 (state (delete_expense 1 (connected seeded two_expenses []))))
        = Return l'
      ∧ l' ≡ₚ filter (λ r, r_id r ≠ 1) l.
Proof.
  assert (int64 1) as Hid by (unfold int64; lia).
  split; [exact Hid|].
  exact (delete_expense_removes_one seeded two_expenses [] 1 Hid).
Defined.

(** X6 on the scenario: no expense has id 7. *)
Lemma delete_expense_missing_id_witness :
  int64 7
  ∧ rows two_expenses !! 7 = None
  ∧ delete_expense 7 (connected seeded two_expenses [])
    = (Return (Bool true), connected seeded two_expenses []).
Proof.
  assert (int64 7) as Hid by (unfold int64; lia).
  split; [exact Hid|].
  split; [vm_compute; reflexivity|].
  apply (delete_expense_missing_id seeded two_expenses [] 7 Hid).
  vm_compute; reflexivity.
Defined.

(** X7 on the scenario: expense 1 is rewritten, expense 2 is not. *)
Lemma update_expense_rewrites_one_witness :
  "Rent" ∈ names seeded
  ∧ value (update_expense 1 900 "Rent" "2024-02-01" "February"
             (connected seeded two_expenses []))
    = Return true
  ∧ value (get_expense_by_id 2
             (state (update_expense 1 900 "Rent" "2024-02-01" "February"
                       (connected seeded two_expenses []))))
    = value (get_expense_by_id 2 (connected seeded two_expenses [])).
Proof.
  assert ("Rent" ∈ names seeded) as Hrent
    by (apply (bool_decide_unpack ("Rent" ∈ names seeded)); by vm_compute).
  assert (int64 1) as Hid by (unfold int64; lia).
  split; [exact Hrent|].
  pose proof (update_expense_rewrites_one seeded two_expenses [] 1 900 "Rent"
                "2024-02-01" "February" Hrent Hid eq_refl) as Hupdate.
  cbv zeta in Hupdate. destruct Hupdate as (Htrue & Hothers & _).
  split; [exact Htrue|].
  apply Hothers; [unfold int64; lia|discriminate].
Defined.

(** X9 on the scenario: from the 12th to the 10th. *)
Lemma reversed_date_range_is_empty_witness :
  get_expenses (Some "2024-01-12") (Some "2024-01-10") None
    (connected seeded two_expenses [])
  = (Return [], connected seeded two_expenses [])
  ∧ get_spending_by_category Z.add 0 (Some "2024-01-12") (Some "2024-01-10")
      (connected seeded two_expenses [])
    = (Return [], connected seeded two_expenses []).
Proof.
  apply (reversed_date_range_is_empty Z.add 0 seeded two_expenses []
           "2024-01-12" "2024-01-10" None).
  - discriminate.
  - discriminate.
  - vm_compute. exact I.
  - discriminate.
Defined.

(** X10 on the scenario: the third expense gets id 3, the fourth id 4. *)
Lemma deleted_id_is_not_reused_witness :
  value (add_expense 7 "Food" "2024-01-14" "Soup"
           (connected seeded two_expenses []))
  = Return true
  ∧ value (get_expense_by_id 3
             (state (add_expense 8 "Food" "2024-01-15" "Tea"
                       (state (delete_expense 3
                                 (state (add_expense 7 "Food" "2024-01-14" "Soup"
                                           (connected seeded two_expenses []))))))))
    = Return None.
Proof.
  pose proof (deleted_id_is_not_reused seeded two_expenses [] 7 "Food"
                "2024-01-14" "Soup" 8 "Food" "2024-01-15" "Tea") as Hids.
  cbv zeta in Hids.
  destruct Hids as (_ & _ & Hgone & _).
  - vm_compute. split; [discriminate|reflexivity].
  - vm_compute. reflexivity.
  - vm_compute. reflexivity.
  - split; [vm_compute; reflexivity|]. exact Hgone.
Defined.

Example fourth_expense_has_id_4 :
  value (get_expense_by_id 4
           (state (add_expense 8 "Food" "2024-01-15" "Tea"
                     (state (delete_expense 3
                               (state (add_expense 7 "Food" "2024-01-14" "Soup"
                                         lunch_store)))))))
  = Return (Some (Record_ 4 8 "Food" "2024-01-15" "Tea")).
Proof. vm_compute. reflexivity. Qed.

(** X19 on the scenario. *)
Lemma writes_keep_references_witness :
  resolves seeded two_expenses
  ∧ ∃ e' log',
      state (add_expense 7 "Food" "2024-01-14" "Soup"
               (connected seeded two_expenses []))
      = connected seeded e' log'
      ∧ resolves seeded e'.
Proof.
  split; [exact two_expenses_resolve|].
  destruct (writes_keep_references seeded two_expenses [] two_expenses_resolve)
    as (Hadd & _).
  apply (Hadd 7 "Food" "2024-01-14" "Soup").
Defined.

(** X20 on the scenario: two rows, two records. *)
Lemma get_expenses_lists_every_row_witness :
  ∃ l, get_expenses None None None (connected seeded two_expenses [])
       = (Return l, connected seeded two_expenses [])
       ∧ length l = size (rows two_expenses)
       ∧ ∀ i, is_Some (rows two_expenses !! i) ↔ i ∈ r_id <$> l.
Proof.
  apply (get_expenses_lists_every_row seeded two_expenses []).
  exact two_expenses_resolve.
Defined.



(** X23 on the scenario: Food is category 1. *)
Lemma get_category_id_of_name_witness :
  _get_category_id "Food" (connected seeded two_expenses [])
  = (Return (Some 1), connected seeded two_expenses [])
  ∧ add_expense 7 "Food" "2024-01-14" "Soup" (connected seeded two_expenses [])
    = (Return true,
       connected seeded (insert_row (Expense 7 1 "2024-01-14" "Soup") two_expenses)
         []).
Proof.
  destruct (get_category_id_of_name seeded two_expenses [] 1 "Food"
              names_seeded_NoDup Food_is_1) as [Hid Hadd].
  split; [exact Hid|].
  apply Hadd; [reflexivity|].
  vm_compute. split; [discriminate|reflexivity].
Defined.

(** X24 on the store whose file could not be opened, with the amount 5. *)
Lemma offline_store_is_inert_witness :
  conn offline_store = None
  ∧ add_expense 5 "Food" "2024-03-01" "" offline_store = (Return false, offline_store)
  ∧ add_expense_gui minus_five_strip five_float (λ a, a <=? 0)
      minus_five_strptime "5" "Food" "2024-03-01" "" offline_store
    = (Return (), offline_store).
Proof.
  split; [reflexivity|].
  destruct (offline_store_is_inert Z.add 0 offline_store eq_refl)
    as (Hadd & _ & _ & _ & _ & _ & _ & _ & Hgui).
  split; [apply Hadd|].
  apply (Hgui minus_five_strip five_float (λ a, a <=? 0) minus_five_strptime
           "5" "Food" "2024-03-01" "" "" 1 eq_refl).
Defined.
